(** * LinearSimilarity: the combination evaluator and its dimension checker

    A shallow embedding of
    [allennlp/modules/similarity_functions/linear.py]:
    the comma separated combination string, the dimension pass run by the
    constructor ([_get_combined_dim], [_get_combination_dim]) and the value
    pass run by every forward call ([_combine_tensors], [_get_combination]).

    Python exceptions are modelled by an error monad, Python [int] by [Z],
    Python [str] by [string] (characters of eight bits), and the tensor
    library by an interface ([TensorRuntime]) with one concrete instance
    ([Dense]).  The operations of [torch] that [forward] applies to the
    combined tensor and the [Params] object that [from_params] reads are
    interfaces of their own ([ProjectionRuntime], [ParamsRuntime]), each
    with a concrete instance. *)

From Equations Require Import Equations.
From Stdlib Require Import String Ascii List ZArith QArith Lia Bool.
Import ListNotations.

Open Scope string_scope.
Open Scope Z_scope.

(** ** Exceptions *)

Inductive exn : Type :=
| ConfigurationError (msg : string)
| IndexError
| RuntimeError.

Inductive result (A : Type) : Type :=
| Ok (a : A)
| Raise (e : exn).

Arguments Ok {A} a.
Arguments Raise {A} e.

Definition bind {A B : Type} (m : result A) (k : A -> result B) : result B :=
  match m with
  | Ok a => k a
  | Raise e => Raise e
  end.

Notation "x <- m ;; k" := (bind m (fun x => k))
  (at level 61, m at next level, right associativity).

(** [raises_ConfigurationError r]: evaluating [r] raised a
    [ConfigurationError] (with whatever message). *)
Definition raises_ConfigurationError {A : Type} (r : result A) : Prop :=
  exists msg, r = Raise (ConfigurationError msg).

Definition is_ConfigurationError {A : Type} (r : result A) : bool :=
  match r with
  | Raise (ConfigurationError _) => true
  | _ => false
  end.

(** ** Python strings *)

(** [s[i]] for an index inside the string: a string of one character.  The
    source indexes only after it has checked [len(s) == 3]. *)
Definition char_at (s : string) (i : nat) : string := substring i 1 s.

(** [s.split(sep)] for a separator of one character: one more piece than
    there are separators, empty pieces kept. *)
Fixpoint split (sep : ascii) (s : string) : list string :=
  match s with
  | EmptyString => [EmptyString]
  | String c s' =>
      if Ascii.eqb c sep then EmptyString :: split sep s'
      else match split sep s' with
           | piece :: pieces => String c piece :: pieces
           | [] => [String c EmptyString]
           end
  end.

(** The double quote character, as a string. *)
Definition dquote : string := String (ascii_of_nat 34) EmptyString.

(** The token made of a left operand, an operator and a right operand. *)
Definition binary (a op b : ascii) : string :=
  String a (String op (String b EmptyString)).

(** The combination expressions of the class docstring: [x], [y], and an
    operand, one of [*], [/], [+], [-], and an operand. *)
Definition is_operand (c : ascii) : bool :=
  (Ascii.eqb c "x" || Ascii.eqb c "y")%bool.

Definition is_operator (c : ascii) : bool :=
  (Ascii.eqb c "*" || Ascii.eqb c "/" || Ascii.eqb c "+" || Ascii.eqb c "-")%bool.

Definition valid_expression (combination : string) : bool :=
  match combination with
  | String a EmptyString => is_operand a
  | String a (String op (String b EmptyString)) =>
      (is_operand a && is_operator op && is_operand b)%bool
  | _ => false
  end.

(** Python's builtin [sum] on a list of integers. *)
Definition sum (l : list Z) : Z := fold_left Z.add l 0.

(** ** The dimension pass *)

(** Termination of the two recursive functions: the recursive calls are on
    one character of a token of three. *)
Ltac one_character_of_three :=
  match goal with
  | H : String.length ?s = 3%nat |- _ =>
      destruct s as [|? [|? [|? [|? ?]]]]; simpl in H; try discriminate H;
      simpl; lia
  end.

Equations _get_combination_dim
  (combination : string) (tensor_1_dim tensor_2_dim : Z) : result Z
  by wf (String.length combination) lt :=
_get_combination_dim combination tensor_1_dim tensor_2_dim
  with (combination =? "x")%string := {
  | true => Ok tensor_1_dim
  | false with (combination =? "y")%string := {
    | true => Ok tensor_2_dim
    | false with Nat.eq_dec (String.length combination) 3 := {
      | right _ =>
          Raise (ConfigurationError ("Invalid combination: " ++ combination))
      | left _
        with _get_combination_dim (char_at combination 0)
                                  tensor_1_dim tensor_2_dim := {
        | Raise e => Raise e
        | Ok first_tensor_dim
          with _get_combination_dim (char_at combination 2)
                                    tensor_1_dim tensor_2_dim := {
          | Raise e => Raise e
          | Ok second_tensor_dim =>
              let operation := char_at combination 1 in
              if negb (first_tensor_dim =? second_tensor_dim)
              then Raise (ConfigurationError
                            ("Tensor dims must match for operation "
                               ++ dquote ++ operation ++ dquote))
              else Ok first_tensor_dim } } } } }.
Next Obligation. one_character_of_three. Qed.
Next Obligation. one_character_of_three. Qed.

(** The list comprehension of [_get_combined_dim]: the expressions are
    evaluated from left to right and the first exception ends it. *)
Fixpoint combination_dims
  (combinations : list string) (tensor_1_dim tensor_2_dim : Z)
  : result (list Z) :=
  match combinations with
  | [] => Ok []
  | combination :: rest =>
      d <- _get_combination_dim combination tensor_1_dim tensor_2_dim ;;
      ds <- combination_dims rest tensor_1_dim tensor_2_dim ;;
      Ok (d :: ds)
  end.

(** [self] is read through [self._combinations] only, which is the one
    attribute set when the constructor calls this method. *)
Definition _get_combined_dim
  (self_combinations : list string) (tensor_1_dim tensor_2_dim : Z)
  : result Z :=
  combination_dims_ <- combination_dims self_combinations
                                        tensor_1_dim tensor_2_dim ;;
  Ok (sum combination_dims_).

(** ** The tensor library

    What the module asks of [torch]: the four elementwise operators,
    concatenation along the last axis, allocation of a vector and the length
    of the last axis.  Every operation may raise (shapes that do not fit). *)

Class TensorRuntime : Type := {
  tensor : Type;
  t_mul : tensor -> tensor -> result tensor;   (* a * b *)
  t_div : tensor -> tensor -> result tensor;   (* a / b *)
  t_add : tensor -> tensor -> result tensor;   (* a + b *)
  t_sub : tensor -> tensor -> result tensor;   (* a - b *)
  t_cat : tensor -> tensor -> result tensor;   (* torch.cat([a, b], dim=-1) *)
  t_new : Z -> result tensor;                  (* torch.Tensor(n) *)
  last_dim : tensor -> Z                       (* t.size()[-1] *)
}.

(** The shape facts about the library that the dimension bookkeeping of the
    module relies on. *)
Class TensorLaws (R : TensorRuntime) : Prop := {
  mul_last_dim : forall a b c,
    t_mul a b = Ok c -> last_dim a = last_dim b -> last_dim c = last_dim a;
  div_last_dim : forall a b c,
    t_div a b = Ok c -> last_dim a = last_dim b -> last_dim c = last_dim a;
  add_last_dim : forall a b c,
    t_add a b = Ok c -> last_dim a = last_dim b -> last_dim c = last_dim a;
  sub_last_dim : forall a b c,
    t_sub a b = Ok c -> last_dim a = last_dim b -> last_dim c = last_dim a;
  cat_last_dim : forall a b c,
    t_cat a b = Ok c -> last_dim c = last_dim a + last_dim b;
  new_last_dim : forall n t,
    t_new n = Ok t -> last_dim t = n
}.

(** ** The value pass and the object *)

Section Class_LinearSimilarity.

Context {R : TensorRuntime}.

Equations _get_combination
  (combination : string) (tensor_1 tensor_2 : tensor) : result tensor
  by wf (String.length combination) lt :=
_get_combination combination tensor_1 tensor_2
  with (combination =? "x")%string := {
  | true => Ok tensor_1
  | false with (combination =? "y")%string := {
    | true => Ok tensor_2
    | false with Nat.eq_dec (String.length combination) 3 := {
      | right _ =>
          Raise (ConfigurationError ("Invalid combination: " ++ combination))
      | left _
        with _get_combination (char_at combination 0) tensor_1 tensor_2 := {
        | Raise e => Raise e
        | Ok first_tensor
          with _get_combination (char_at combination 2) tensor_1 tensor_2 := {
          | Raise e => Raise e
          | Ok second_tensor =>
              let operation := char_at combination 1 in
              if (operation =? "*")%string
              then t_mul first_tensor second_tensor
              else if (operation =? "/")%string
              then t_div first_tensor second_tensor
              else if (operation =? "+")%string
              then t_add first_tensor second_tensor
              else if (operation =? "-")%string
              then t_sub first_tensor second_tensor
              else Raise (ConfigurationError
                            ("Invalid operation: " ++ operation)) } } } } }.
Next Obligation. one_character_of_three. Qed.
Next Obligation. one_character_of_three. Qed.

(** The [for] loop of [_combine_tensors] over [self._combinations[1:]]. *)
Fixpoint combine_loop
  (rest : list string) (tensor_1 tensor_2 combined_tensor : tensor)
  : result tensor :=
  match rest with
  | [] => Ok combined_tensor
  | combination :: rest' =>
      to_concatenate <- _get_combination combination tensor_1 tensor_2 ;;
      combined_tensor' <- t_cat combined_tensor to_concatenate ;;
      combine_loop rest' tensor_1 tensor_2 combined_tensor'
  end.

Definition _combine_tensors
  (self_combinations : list string) (tensor_1 tensor_2 : tensor)
  : result tensor :=
  match self_combinations with
  | [] => Raise IndexError
  | first :: rest =>
      combined_tensor <- _get_combination first tensor_1 tensor_2 ;;
      combine_loop rest tensor_1 tensor_2 combined_tensor
  end.

(** [torch.cat] along the last axis, applied from left to right to a first
    tensor and the tensors after it. *)
Definition cat_all (first : tensor) (rest : list tensor) : result tensor :=
  fold_left (fun acc t => combined <- acc ;; t_cat combined t)
            rest (Ok first).

Record LinearSimilarity : Type := {
  _combinations : list string;
  _weight_vector : tensor;
  _bias : tensor;
  _activation : tensor -> result tensor
}.

Definition __init__
  (tensor_1_dim tensor_2_dim : Z) (combination : string)
  (activation : tensor -> result tensor) : result LinearSimilarity :=
  let self_combinations := split "," combination in
  combined_dim <- _get_combined_dim self_combinations
                                    tensor_1_dim tensor_2_dim ;;
  weight_vector <- t_new combined_dim ;;
  bias <- t_new 1 ;;
  Ok {| _combinations := self_combinations;
        _weight_vector := weight_vector;
        _bias := bias;
        _activation := activation |}.

(** The defaults of the constructor: [combination='x,y'] and
    [activation=lambda x: x]. *)
Definition default_combination : string := "x,y".
Definition default_activation (x : tensor) : result tensor := Ok x.

End Class_LinearSimilarity.

(** ** A concrete tensor library: dense row-major tensors

    A tensor is a shape and its elements in row-major order, so the last
    axis is the one that varies fastest.  The element type and its
    arithmetic are parameters.  Elementwise operators want equal shapes;
    concatenation along the last axis wants equal leading axes and puts
    each row of the second tensor after the same row of the first. *)

Fixpoint zip_with {X Y W : Type} (f : X -> Y -> W)
  (l1 : list X) (l2 : list Y) : list W :=
  match l1, l2 with
  | a :: l1', b :: l2' => f a b :: zip_with f l1' l2'
  | _, _ => []
  end.

Module Dense.

Section Elements.

Variable A : Type.
Variables e_mul e_div e_add e_sub : A -> A -> A.
Variable e_zero : A.

Record dense : Type := { shape : list nat; data : list A }.

Definition shape_eqb (s1 s2 : list nat) : bool :=
  if list_eq_dec Nat.eq_dec s1 s2 then true else false.

Definition elementwise (f : A -> A -> A) (a b : dense) : result dense :=
  if shape_eqb (shape a) (shape b)
  then Ok {| shape := shape a; data := zip_with f (data a) (data b) |}
  else Raise RuntimeError.

(** The first [n] rows of length [d] of a row-major element list. *)
Fixpoint rows (n d : nat) (l : list A) : list (list A) :=
  match n with
  | O => []
  | S n' => firstn d l :: rows n' d (skipn d l)
  end.

Definition numel (s : list nat) : nat := fold_right Nat.mul 1%nat s.

Definition cat (a b : dense) : result dense :=
  match shape a, shape b with
  | [], _ => Raise RuntimeError
  | _, [] => Raise RuntimeError
  | _ :: _, _ :: _ =>
      let lead := removelast (shape a) in
      if shape_eqb lead (removelast (shape b))
      then
        let da := last (shape a) 0%nat in
        let db := last (shape b) 0%nat in
        let n := numel lead in
        Ok {| shape := lead ++ [(da + db)%nat];
              data := concat (zip_with (@app A) (rows n da (data a))
                                                (rows n db (data b))) |}
      else Raise RuntimeError
  end.

(** [torch.Tensor(n)] leaves the entries uninitialised; here they are
    [e_zero]. *)
Definition new (n : Z) : result dense :=
  if n <? 0 then Raise RuntimeError
  else Ok {| shape := [Z.to_nat n]; data := repeat e_zero (Z.to_nat n) |}.

Definition size_last (t : dense) : Z := Z.of_nat (last (shape t) 0%nat).

Definition runtime : TensorRuntime :=
  {| tensor := dense;
     t_mul := elementwise e_mul;
     t_div := elementwise e_div;
     t_add := elementwise e_add;
     t_sub := elementwise e_sub;
     t_cat := cat;
     t_new := new;
     last_dim := size_last |}.

(** A vector: a tensor with one axis. *)
Definition vector (l : list A) : dense :=
  {| shape := [length l]; data := l |}.

(** A matrix given by its rows, all of length [d]. *)
Definition matrix (d : nat) (rs : list (list A)) : dense :=
  {| shape := [length rs; d]; data := concat rs |}.

End Elements.

Arguments shape {A} d.
Arguments data {A} d.
Arguments vector {A} l.
Arguments matrix {A} d rs.

(** Rational elements, with exact arithmetic. *)
Definition Qruntime : TensorRuntime := runtime Q Qmult Qdiv Qplus Qminus 0%Q.

End Dense.

(** ** Definitions for the properties of the whole class *)

From Stdlib Require Import Permutation.

(** [c in s] for a character [c], and the number of its occurrences
    ([s.count(c)]). *)
Fixpoint contains (c : ascii) (s : string) : bool :=
  match s with
  | EmptyString => false
  | String c' s' => (Ascii.eqb c' c || contains c s')%bool
  end.

Fixpoint count_char (c : ascii) (s : string) : nat :=
  match s with
  | EmptyString => O
  | String c' s' => ((if Ascii.eqb c' c then 1 else 0) + count_char c s')%nat
  end.

(** What the dimension pass makes of an operand character that it
    accepts: [x] is the first dimension, [y] the second. *)
Definition operand_dim (a : ascii) (tensor_1_dim tensor_2_dim : Z) : Z :=
  if Ascii.eqb a "x" then tensor_1_dim else tensor_2_dim.

(** ** Construction from a configuration

    [from_params] reads a [Params] object of [allennlp.common], which is
    not part of this file: its three operations are an interface.  A [pop]
    mutates the object, so every operation returns the object it leaves
    behind.  The values are read at the types that the constructor
    annotates ([int], [int], [str]). *)

Class ParamsRuntime : Type := {
  Params : Type;
  (* params.pop(key), the value an int *)
  pop_int : string -> Params -> result Z * Params;
  (* params.pop(key, default), the value and the default a str *)
  pop_str : string -> string -> Params -> result string * Params;
  (* params.assert_empty(class_name) *)
  assert_empty : string -> Params -> result unit
}.

Section From_params.

Context {R : TensorRuntime} {P : ParamsRuntime}.

(** Computations that may raise and that change the [Params] object. *)
Definition config (A : Type) : Type := Params -> result A * Params.

Definition config_bind {A B : Type} (m : config A) (k : A -> config B)
  : config B :=
  fun params =>
    match m params with
    | (Ok a, params') => k a params'
    | (Raise e, params') => (Raise e, params')
    end.

Definition config_lift {A : Type} (r : result A) : config A :=
  fun params => (r, params).

Notation "x <~ m ;; k" := (config_bind m (fun x => k))
  (at level 61, m at next level, right associativity).

Definition from_params : config LinearSimilarity :=
  tensor_1_dim <~ pop_int "tensor_1_dim" ;;
  tensor_2_dim <~ pop_int "tensor_2_dim" ;;
  combination <~ pop_str "combination" "x,y" ;;
  let activation := fun x : tensor => Ok x in
  _ <~ (fun params => (assert_empty "LinearSimilarity" params, params)) ;;
  config_lift (__init__ tensor_1_dim tensor_2_dim combination activation).

End From_params.

(** Modelled from the spec: the key-value configuration object, of which
    the spec says that [from_params] extracts [tensor_1_dim],
    [tensor_2_dim] and [combination] (default [x,y]) from it and that
    unexpected extra keys are rejected.  The entries are kept by the type
    of their value; a required key that is missing and a key that is left
    over raise [ConfigurationError]. *)
Module Config.

Record t : Type := { ints : list (string * Z); strs : list (string * string) }.

Fixpoint lookup {V : Type} (key : string) (l : list (string * V)) : option V :=
  match l with
  | [] => None
  | (k, v) :: l' => if (k =? key)%string then Some v else lookup key l'
  end.

Fixpoint remove {V : Type} (key : string) (l : list (string * V))
  : list (string * V) :=
  match l with
  | [] => []
  | (k, v) :: l' =>
      if (k =? key)%string then remove key l' else (k, v) :: remove key l'
  end.

Definition pop_int (key : string) (c : t) : result Z * t :=
  match lookup key (ints c) with
  | Some v => (Ok v, {| ints := remove key (ints c); strs := strs c |})
  | None =>
      (Raise (ConfigurationError
                ("key " ++ dquote ++ key ++ dquote ++ " is required")), c)
  end.

Definition pop_str (key default : string) (c : t) : result string * t :=
  match lookup key (strs c) with
  | Some v => (Ok v, {| ints := ints c; strs := remove key (strs c) |})
  | None => (Ok default, c)
  end.

Definition assert_empty (class_name : string) (c : t) : result unit :=
  match ints c, strs c with
  | [], [] => Ok tt
  | _, _ =>
      Raise (ConfigurationError ("Extra parameters passed to " ++ class_name))
  end.

Definition runtime : ParamsRuntime :=
  Build_ParamsRuntime t pop_int pop_str assert_empty.

End Config.

(** ** The forward pass

    After [_combine_tensors], [forward] multiplies the combined tensor with
    the weight vector, adds the bias and applies the activation.  The
    operations of [torch] that it uses for this are a second interface. *)

Class ProjectionRuntime (R : TensorRuntime) : Type := {
  t_dim : tensor -> Z;                            (* t.dim() *)
  t_size : tensor -> list Z;                      (* t.size() *)
  t_matmul : tensor -> tensor -> result tensor;   (* a @ b *)
  t_view : tensor -> list Z -> result tensor;     (* t.view( *sizes ) *)
  t_unsqueeze : tensor -> Z -> result tensor;     (* t.unsqueeze(dim) *)
  t_expand : tensor -> list Z -> result tensor;   (* t.expand( *sizes ) *)
  t_bmm : tensor -> tensor -> result tensor;      (* a.bmm(b) *)
  t_expand_as : tensor -> tensor -> result tensor;  (* a.expand_as(b) *)
  t_squeeze : tensor -> Z -> result tensor        (* t.squeeze(dim=d) *)
}.

(** Python's [l[0]], [l[-2:]] and [l[:-1]] on a list. *)
Definition getitem_0 (l : list Z) : result Z :=
  match l with
  | [] => Raise IndexError
  | a :: _ => Ok a
  end.

Definition last_two (l : list Z) : list Z := skipn (length l - 2) l.

Definition all_but_last (l : list Z) : list Z := removelast l.

Module Forward_pass.

Section Forward.

Context {R : TensorRuntime} {P : ProjectionRuntime R}.

(** The statement [if combined_tensors.dim() <= 2: ... else: ...] of
    [forward], which binds [dot_product]. *)
Definition dot_product_of
  (self : LinearSimilarity) (combined_tensors : tensor) : result tensor :=
  if t_dim combined_tensors <=? 2
  then t_matmul combined_tensors (_weight_vector self)
  else
    let view_args := ([-1] ++ last_two (t_size combined_tensors))%list in
    reshaped_tensor <- t_view combined_tensors view_args ;;
    unsqueezed_1 <- t_unsqueeze (_weight_vector self) 1 ;;
    unsqueezed_weight <- t_unsqueeze unsqueezed_1 0 ;;
    size_0 <- getitem_0 (t_size reshaped_tensor) ;;
    weight_size_0 <- getitem_0 (t_size (_weight_vector self)) ;;
    reshaped_weight <- t_expand unsqueezed_weight
                                [size_0; weight_size_0; 1] ;;
    reshaped_dot_product <- t_bmm reshaped_tensor reshaped_weight ;;
    let view_args := all_but_last (t_size combined_tensors) in
    t_view reshaped_dot_product view_args.

Definition forward
  (self : LinearSimilarity) (tensor_1 tensor_2 : tensor) : result tensor :=
  combined_tensors <- _combine_tensors (_combinations self)
                                       tensor_1 tensor_2 ;;
  dot_product <- dot_product_of self combined_tensors ;;
  expanded_bias <- t_expand_as (_bias self) dot_product ;;
  biased <- t_add dot_product expanded_bias ;;
  activated <- _activation self biased ;;
  t_squeeze activated (-1).

End Forward.

End Forward_pass.

(** The shape rules of [torch] that [forward] relies on. *)

Definition prod (l : list Z) : Z := fold_right Z.mul 1 l.

(** The sizes that [t.view( *args )] gives a tensor of sizes [size]: the
    arguments must have as many elements as the tensor, and one argument may
    be [-1], which stands for the size that makes them have as many. *)
Definition view_shape (size args : list Z) : option (list Z) :=
  let n := prod size in
  match count_occ Z.eq_dec args (-1) with
  | O =>
      if (forallb (fun a => 0 <=? a) args && (prod args =? n))%bool
      then Some args else None
  | 1%nat =>
      let known := prod (filter (fun a => negb (a =? -1)) args) in
      if (forallb (fun a => -1 <=? a) args && (0 <? known)
          && (n mod known =? 0))%bool
      then Some (map (fun a => if a =? -1 then n / known else a) args)
      else None
  | _ => None
  end.

Definition insert_at (k : nat) (v : Z) (l : list Z) : list Z :=
  (firstn k l ++ v :: skipn k l)%list.

(** [t.is_contiguous()]: the elements of [t] lie in memory in row-major
    order.  [t.view] is sure to succeed on such a tensor only; a tensor
    that the caller has transposed or sliced need not be one. *)
Class LayoutRuntime (R : TensorRuntime) : Type := {
  t_is_contiguous : tensor -> bool
}.

Class ProjectionLaws
  (R : TensorRuntime) (P : ProjectionRuntime R) (Y : LayoutRuntime R)
  : Prop := {
  size_dim : forall t, t_dim t = Z.of_nat (length (t_size t));
  size_last_dim : forall t, last (t_size t) 0 = last_dim t;
  size_nonneg : forall t, Forall (fun s => 0 <= s) (t_size t);
  new_size : forall n t, t_new n = Ok t -> t_size t = [n];
  matmul_sizes : forall a w n d,
    t_size a = [n; d] -> t_size w = [d] ->
    exists c, t_matmul a w = Ok c /\ t_size c = [n];
  view_sizes : forall t args s,
    t_is_contiguous t = true ->
    view_shape (t_size t) args = Some s ->
    exists t', t_view t args = Ok t' /\ t_size t' = s;
  unsqueeze_sizes : forall t k,
    0 <= k <= Z.of_nat (length (t_size t)) ->
    exists t', t_unsqueeze t k = Ok t' /\
               t_size t' = insert_at (Z.to_nat k) 1 (t_size t);
  expand_sizes : forall t sizes,
    Forall2 (fun s z => (s = z \/ s = 1) /\ 0 <= z) (t_size t) sizes ->
    exists t', t_expand t sizes = Ok t' /\ t_size t' = sizes;
  bmm_sizes : forall a c b n m p,
    t_size a = [b; n; m] -> t_size c = [b; m; p] ->
    exists r, t_bmm a c = Ok r /\ t_size r = [b; n; p];
  bmm_contiguous : forall a c r,
    t_bmm a c = Ok r -> t_is_contiguous r = true
}.

(** The dense tensors with the operations of the forward pass. *)
Module DenseProjection.

Section Elements.

Variable A : Type.
Variables e_mul e_div e_add e_sub : A -> A -> A.
Variable e_zero : A.

Let dense : Type := Dense.dense A.

Definition size (t : dense) : list Z := map Z.of_nat (Dense.shape t).

Definition dim (t : dense) : Z := Z.of_nat (length (Dense.shape t)).

Definition dot (u v : list A) : A :=
  fold_left e_add (zip_with e_mul u v) e_zero.

(** A matrix (or a vector) times a vector. *)
Definition matmul (a w : dense) : result dense :=
  match size a, size w with
  | [n; d], [d'] =>
      if d =? d'
      then Ok {| Dense.shape := [Z.to_nat n];
                 Dense.data :=
                   map (fun row => dot row (Dense.data w))
                       (Dense.rows A (Z.to_nat n) (Z.to_nat d)
                                   (Dense.data a)) |}
      else Raise RuntimeError
  | [d], [d'] =>
      if d =? d'
      then Ok {| Dense.shape := [1%nat];
                 Dense.data := [dot (Dense.data a) (Dense.data w)] |}
      else Raise RuntimeError
  | _, _ => Raise RuntimeError
  end.

Definition view (t : dense) (args : list Z) : result dense :=
  match view_shape (size t) args with
  | Some s => Ok {| Dense.shape := map Z.to_nat s; Dense.data := Dense.data t |}
  | None => Raise RuntimeError
  end.

(** Axes are counted from the front. *)
Definition unsqueeze (t : dense) (k : Z) : result dense :=
  if ((0 <=? k) && (k <=? dim t))%bool
  then Ok {| Dense.shape :=
               map Z.to_nat (insert_at (Z.to_nat k) 1 (size t));
             Dense.data := Dense.data t |}
  else Raise RuntimeError.

(** The elements of a tensor of shape [shape] repeated along the axes of
    size 1 that [sizes] makes longer. *)
Fixpoint expand_data (shape sizes : list nat) (l : list A) : list A :=
  match shape, sizes with
  | s :: shape', z :: sizes' =>
      let parts :=
        map (expand_data shape' sizes')
            (Dense.rows A s (Dense.numel shape') l) in
      if (s =? z)%nat then concat parts
      else concat (repeat (concat parts) z)
  | _, _ => l
  end.

Fixpoint expandable (size sizes : list Z) : bool :=
  match size, sizes with
  | [], [] => true
  | s :: size', z :: sizes' =>
      (((s =? z) || (s =? 1)) && (0 <=? z) && expandable size' sizes')%bool
  | _, _ => false
  end.

(** New axes, of size 1, are put in front when [sizes] has more axes. *)
Definition expand (t : dense) (sizes : list Z) : result dense :=
  let padded :=
    (repeat 1%nat (length sizes - length (Dense.shape t)) ++ Dense.shape t)%list in
  if expandable (map Z.of_nat padded) sizes
  then Ok {| Dense.shape := map Z.to_nat sizes;
             Dense.data := expand_data padded (map Z.to_nat sizes)
                                       (Dense.data t) |}
  else Raise RuntimeError.

(** The product of the matrices of two batches, matrix by matrix. *)
Definition matrix_product (n m p : nat) (a b : list A) : list A :=
  let rows_b := Dense.rows A m p b in
  concat
    (map (fun row =>
            map (fun j => dot row (map (fun r => nth j r e_zero) rows_b))
                (seq 0 p))
         (Dense.rows A n m a)).

Definition bmm (a c : dense) : result dense :=
  match size a, size c with
  | [b; n; m], [b'; m'; p] =>
      if ((b =? b') && (m =? m'))%bool
      then
        let nn := Z.to_nat n in
        let mm := Z.to_nat m in
        let pp := Z.to_nat p in
        Ok {| Dense.shape := [Z.to_nat b; nn; pp];
              Dense.data :=
                concat
                  (zip_with (matrix_product nn mm pp)
                     (Dense.rows A (Z.to_nat b) (nn * mm) (Dense.data a))
                     (Dense.rows A (Z.to_nat b) (mm * pp) (Dense.data c))) |}
      else Raise RuntimeError
  | _, _ => Raise RuntimeError
  end.

Definition expand_as (a b : dense) : result dense := expand a (size b).

(** [squeeze(dim=-1)]: a last axis of size 1 goes, unless it is the only
    axis.  Other axes are not asked for by [forward]. *)
Definition squeeze (t : dense) (d : Z) : result dense :=
  if d =? -1
  then
    match Dense.shape t with
    | _ :: _ :: _ =>
        if (last (Dense.shape t) 0 =? 1)%nat
        then Ok {| Dense.shape := removelast (Dense.shape t);
                   Dense.data := Dense.data t |}
        else Ok t
    | _ => Ok t
    end
  else Raise RuntimeError.

Definition runtime
  : ProjectionRuntime (Dense.runtime A e_mul e_div e_add e_sub e_zero) :=
  Build_ProjectionRuntime (Dense.runtime A e_mul e_div e_add e_sub e_zero)
    dim size matmul view unsqueeze expand bmm expand_as squeeze.

End Elements.

(** A dense tensor is its elements in row-major order. *)
Definition layout (A : Type) (e_mul e_div e_add e_sub : A -> A -> A)
  (e_zero : A)
  : LayoutRuntime (Dense.runtime A e_mul e_div e_add e_sub e_zero) :=
  Build_LayoutRuntime (Dense.runtime A e_mul e_div e_add e_sub e_zero)
    (fun _ => true).

Definition Qruntime : ProjectionRuntime Dense.Qruntime :=
  runtime Q Qmult Qdiv Qplus Qminus 0%Q.

Definition Qlayout : LayoutRuntime Dense.Qruntime :=
  layout Q Qmult Qdiv Qplus Qminus 0%Q.

End DenseProjection.

(** ** The object and its attributes

    A method body may raise and may assign to the attributes of [self]: it
    takes the object and returns, with its result, the object that it
    leaves behind.  [getattr] is a read of [self.<attribute>], the four
    [set_...] are the assignments [self.<attribute> = v]. *)
Module Object.

Section Methods.

Context {R : TensorRuntime} {P : ProjectionRuntime R}.

Definition body (A : Type) : Type :=
  LinearSimilarity -> result A * LinearSimilarity.

Definition body_bind {A B : Type} (m : body A) (k : A -> body B) : body B :=
  fun self =>
    match m self with
    | (Ok a, self') => k a self'
    | (Raise e, self') => (Raise e, self')
    end.

(** A computation that does not touch [self]. *)
Definition lift {A : Type} (r : result A) : body A := fun self => (r, self).

Definition getattr {A : Type} (attribute : LinearSimilarity -> A) : body A :=
  fun self => (Ok (attribute self), self).

Definition set_combinations (v : list string) : body unit :=
  fun self =>
    (Ok tt, {| _combinations := v;
               _weight_vector := _weight_vector self;
               _bias := _bias self;
               _activation := _activation self |}).

Definition set_weight_vector (v : tensor) : body unit :=
  fun self =>
    (Ok tt, {| _combinations := _combinations self;
               _weight_vector := v;
               _bias := _bias self;
               _activation := _activation self |}).

Definition set_bias (v : tensor) : body unit :=
  fun self =>
    (Ok tt, {| _combinations := _combinations self;
               _weight_vector := _weight_vector self;
               _bias := v;
               _activation := _activation self |}).

Definition set_activation (v : tensor -> result tensor) : body unit :=
  fun self =>
    (Ok tt, {| _combinations := _combinations self;
               _weight_vector := _weight_vector self;
               _bias := _bias self;
               _activation := v |}).

Notation "x <~ m ;; k" := (body_bind m (fun x => k))
  (at level 61, m at next level, right associativity).

(** The two recursive methods use no attribute of [self]. *)
Definition _get_combination_dim
  (combination : string) (tensor_1_dim tensor_2_dim : Z) : body Z :=
  lift (_get_combination_dim combination tensor_1_dim tensor_2_dim).

Definition _get_combination
  (combination : string) (tensor_1 tensor_2 : tensor) : body tensor :=
  lift (_get_combination combination tensor_1 tensor_2).

Definition _get_combined_dim (tensor_1_dim tensor_2_dim : Z) : body Z :=
  combinations <~ getattr _combinations ;;
  lift (_get_combined_dim combinations tensor_1_dim tensor_2_dim).

Definition _combine_tensors (tensor_1 tensor_2 : tensor) : body tensor :=
  combinations <~ getattr _combinations ;;
  lift (_combine_tensors combinations tensor_1 tensor_2).

Definition forward (tensor_1 tensor_2 : tensor) : body tensor :=
  combined_tensors <~ _combine_tensors tensor_1 tensor_2 ;;
  self_ <~ getattr (fun self => self) ;;
  dot_product <~ lift (Forward_pass.dot_product_of self_ combined_tensors) ;;
  bias <~ getattr _bias ;;
  expanded_bias <~ lift (t_expand_as bias dot_product) ;;
  biased <~ lift (t_add dot_product expanded_bias) ;;
  activation <~ getattr _activation ;;
  activated <~ lift (activation biased) ;;
  lift (t_squeeze activated (-1)).

(** The constructor, run on an object whose attributes it assigns one
    after the other. *)
Definition __init__
  (tensor_1_dim tensor_2_dim : Z) (combination : string)
  (activation : tensor -> result tensor) : body unit :=
  _ <~ set_combinations (split "," combination) ;;
  combined_dim <~ _get_combined_dim tensor_1_dim tensor_2_dim ;;
  weight_vector <~ lift (t_new combined_dim) ;;
  _ <~ set_weight_vector weight_vector ;;
  bias <~ lift (t_new 1) ;;
  _ <~ set_bias bias ;;
  set_activation activation.

(** A call of one of the methods that a constructed object has, with its
    arguments. *)
Inductive method : Type :=
| Forward (tensor_1 tensor_2 : tensor)
| Combine_tensors (tensor_1 tensor_2 : tensor)
| Get_combination (combination : string) (tensor_1 tensor_2 : tensor)
| Get_combined_dim (tensor_1_dim tensor_2_dim : Z)
| Get_combination_dim (combination : string) (tensor_1_dim tensor_2_dim : Z).

(** The object that a call leaves behind, whether it returned or raised. *)
Definition call (m : method) (self : LinearSimilarity) : LinearSimilarity :=
  match m with
  | Forward tensor_1 tensor_2 => snd (forward tensor_1 tensor_2 self)
  | Combine_tensors tensor_1 tensor_2 =>
      snd (_combine_tensors tensor_1 tensor_2 self)
  | Get_combination combination tensor_1 tensor_2 =>
      snd (_get_combination combination tensor_1 tensor_2 self)
  | Get_combined_dim tensor_1_dim tensor_2_dim =>
      snd (_get_combined_dim tensor_1_dim tensor_2_dim self)
  | Get_combination_dim combination tensor_1_dim tensor_2_dim =>
      snd (_get_combination_dim combination tensor_1_dim tensor_2_dim self)
  end.

(** The object after a sequence of calls. *)
Definition lifetime (calls : list method) (self : LinearSimilarity)
  : LinearSimilarity :=
  fold_left (fun s m => call m s) calls self.

End Methods.

End Object.

(** ** The dimension of an expression, as the specification words it

    A combination expression is the literal [x], the literal [y], or an
    operand, an operator among [*], [/], [+], [-] and an operand, the
    operands being [x] or [y].  The literal [x] has the dimension of the
    first input and [y] that of the second; a binary expression has the
    dimension that its two operands share, and none when they differ.  A
    token that is no combination expression has no dimension. *)
Definition spec_literal_dimension (operand : ascii) (dim_x dim_y : Z)
  : option Z :=
  if Ascii.eqb operand "x" then Some dim_x
  else if Ascii.eqb operand "y" then Some dim_y
  else None.

Definition spec_dimension (expression : string) (dim_x dim_y : Z)
  : option Z :=
  match expression with
  | String operand EmptyString => spec_literal_dimension operand dim_x dim_y
  | String left_operand (String operator (String right_operand EmptyString)) =>
      if is_operator operator
      then
        match spec_literal_dimension left_operand dim_x dim_y,
              spec_literal_dimension right_operand dim_x dim_y with
        | Some dim_left, Some dim_right =>
            if dim_left =? dim_right then Some dim_left else None
        | _, _ => None
        end
      else None
  | _ => None
  end.

(** A token of three characters that is no combination expression only
    because of its middle character, and whose operands share the
    dimension [d]. *)
Definition operands_share (token : string) (dim_x dim_y d : Z) : Prop :=
  exists left_operand operator right_operand : ascii,
    token = binary left_operand operator right_operand /\
    is_operator operator = false /\
    spec_literal_dimension left_operand dim_x dim_y = Some d /\
    spec_literal_dimension right_operand dim_x dim_y = Some d.

(** * Properties *)

(** ** The result monad and Python strings *)

Lemma bind_Ok_inv {A B : Type} (m : result A) (k : A -> result B) (b : B) :
  bind m k = Ok b -> exists a, m = Ok a /\ k a = Ok b.
Proof.
  destruct m as [a|e]; simpl; intros H; [eauto | discriminate].
Qed.

Lemma raises_ConfigurationError_iff {A : Type} (r : result A) :
  raises_ConfigurationError r <-> is_ConfigurationError r = true.
Proof.
  unfold raises_ConfigurationError. split.
  - intros [msg ->]. reflexivity.
  - destruct r as [a|[msg| |]]; simpl; try discriminate. eauto.
Qed.

(** A split has at least one piece. *)
Lemma split_not_nil (sep : ascii) (s : string) : split sep s <> [].
Proof.
  induction s as [|c s IH]; simpl; [discriminate|].
  destruct (Ascii.eqb c sep); [discriminate|].
  destruct (split sep s); [contradiction | discriminate].
Qed.

(** ** The body of the two recursive functions, as one equation each *)

Lemma _get_combination_dim_body (combination : string) (d1 d2 : Z) :
  _get_combination_dim combination d1 d2 =
  if (combination =? "x")%string then Ok d1
  else if (combination =? "y")%string then Ok d2
  else if negb (String.length combination =? 3)%nat
  then Raise (ConfigurationError ("Invalid combination: " ++ combination))
  else
    first_tensor_dim <- _get_combination_dim (char_at combination 0) d1 d2 ;;
    second_tensor_dim <- _get_combination_dim (char_at combination 2) d1 d2 ;;
    let operation := char_at combination 1 in
    if negb (first_tensor_dim =? second_tensor_dim)
    then Raise (ConfigurationError
                  ("Tensor dims must match for operation "
                     ++ dquote ++ operation ++ dquote))
    else Ok first_tensor_dim.
Proof.
  rewrite _get_combination_dim_equation_1.
  destruct (combination =? "x")%string; simpl; [reflexivity|].
  destruct (combination =? "y")%string; simpl; [reflexivity|].
  destruct (Nat.eq_dec (String.length combination) 3) as [e|n]; simpl.
  - replace (String.length combination =? 3)%nat with true
      by (symmetry; apply Nat.eqb_eq; exact e).
    cbn [negb].
    destruct (_get_combination_dim (char_at combination 0) d1 d2); simpl;
      [|reflexivity].
    destruct (_get_combination_dim (char_at combination 2) d1 d2); simpl;
      reflexivity.
  - apply Nat.eqb_neq in n. rewrite n. reflexivity.
Qed.

Lemma length_substring_le (s : string) (n m : nat) :
  (String.length (substring n m s) <= m)%nat.
Proof.
  revert n m; induction s as [|c s IH]; intros [|n] [|m]; simpl; try lia.
  - specialize (IH 0%nat m). lia.
  - apply (IH n 0%nat).
  - apply (IH n (S m)).
Qed.

Lemma char_at_length_not_3 (s : string) (i : nat) :
  String.length (char_at s i) <> 3%nat.
Proof.
  unfold char_at. pose proof (length_substring_le s i 1). lia.
Qed.

(** On a token that is not three characters long the dimension pass is the
    two literal tests followed by the "Invalid combination" error. *)
Lemma _get_combination_dim_short (combination : string) (d1 d2 : Z) :
  String.length combination <> 3%nat ->
  _get_combination_dim combination d1 d2 =
  if (combination =? "x")%string then Ok d1
  else if (combination =? "y")%string then Ok d2
  else Raise (ConfigurationError ("Invalid combination: " ++ combination)).
Proof.
  intros H. rewrite _get_combination_dim_body.
  apply Nat.eqb_neq in H. rewrite H. reflexivity.
Qed.

(** The dimension pass raises nothing but [ConfigurationError]. *)
Lemma _get_combination_dim_raises (combination : string) (d1 d2 : Z) (e : exn) :
  _get_combination_dim combination d1 d2 = Raise e ->
  exists msg, e = ConfigurationError msg.
Proof.
  rewrite _get_combination_dim_body.
  rewrite !(_get_combination_dim_short (char_at combination _))
    by apply char_at_length_not_3.
  repeat match goal with
         | |- context [if ?b then _ else _] => destruct b; simpl
         end;
    intros H; inversion H; eauto.
Qed.

Lemma combination_dims_raises (cs : list string) (d1 d2 : Z) (e : exn) :
  combination_dims cs d1 d2 = Raise e ->
  exists msg, e = ConfigurationError msg.
Proof.
  induction cs as [|c cs IH]; simpl; [discriminate|].
  destruct (_get_combination_dim c d1 d2) as [d|e'] eqn:Hc; simpl.
  - destruct (combination_dims cs d1 d2) as [ds|e'']; simpl;
      intros H; inversion H; subst; auto.
  - intros H; inversion H; subst.
    eapply _get_combination_dim_raises; eassumption.
Qed.

(** The list comprehension succeeds exactly when every expression does, and
    then lists the dimensions in the order of the expressions. *)
Lemma combination_dims_Ok (cs : list string) (d1 d2 : Z) (ds : list Z) :
  combination_dims cs d1 d2 = Ok ds <->
  Forall2 (fun c d => _get_combination_dim c d1 d2 = Ok d) cs ds.
Proof.
  revert ds; induction cs as [|c cs IH]; intros ds; simpl.
  - split; intros H; inversion H; constructor.
  - split.
    + intros H. apply bind_Ok_inv in H as (d & Hd & H).
      apply bind_Ok_inv in H as (ds' & Hds & H). inversion H; subst.
      constructor; [assumption | apply IH; assumption].
    + intros H. inversion H as [|? d ? ds' Hd Hds]; subst.
      rewrite Hd; simpl. apply IH in Hds. rewrite Hds. reflexivity.
Qed.

(** A failing expression makes the list comprehension fail. *)
Lemma combination_dims_In_raises (cs : list string) (d1 d2 : Z) (c : string) :
  In c cs ->
  (exists e, _get_combination_dim c d1 d2 = Raise e) ->
  raises_ConfigurationError (combination_dims cs d1 d2).
Proof.
  intros Hin [e He].
  destruct (combination_dims cs d1 d2) as [ds|e'] eqn:Hcs.
  - exfalso. apply combination_dims_Ok in Hcs.
    induction Hcs as [|c' d cs' ds' Hd _ IH]; simpl in Hin; [contradiction|].
    destruct Hin as [->|Hin]; [congruence | auto].
  - destruct (combination_dims_raises _ _ _ _ Hcs) as [msg ->].
    exists msg; reflexivity.
Qed.

Lemma sum_cons (d : Z) (ds : list Z) : sum (d :: ds) = d + sum ds.
Proof.
  unfold sum; simpl.
  assert (H : forall l z, fold_left Z.add l z = z + fold_left Z.add l 0).
  { induction l as [|a l IH]; intros z; simpl; [lia|].
    rewrite (IH (z + a)), (IH a). lia. }
  apply H.
Qed.

Section ValuePass.

Context {R : TensorRuntime}.

Lemma _get_combination_body (combination : string) (tensor_1 tensor_2 : tensor) :
  _get_combination combination tensor_1 tensor_2 =
  if (combination =? "x")%string then Ok tensor_1
  else if (combination =? "y")%string then Ok tensor_2
  else if negb (String.length combination =? 3)%nat
  then Raise (ConfigurationError ("Invalid combination: " ++ combination))
  else
    first_tensor <- _get_combination (char_at combination 0)
                                     tensor_1 tensor_2 ;;
    second_tensor <- _get_combination (char_at combination 2)
                                      tensor_1 tensor_2 ;;
    let operation := char_at combination 1 in
    if (operation =? "*")%string then t_mul first_tensor second_tensor
    else if (operation =? "/")%string then t_div first_tensor second_tensor
    else if (operation =? "+")%string then t_add first_tensor second_tensor
    else if (operation =? "-")%string then t_sub first_tensor second_tensor
    else Raise (ConfigurationError ("Invalid operation: " ++ operation)).
Proof.
  rewrite _get_combination_equation_1.
  destruct (combination =? "x")%string; simpl; [reflexivity|].
  destruct (combination =? "y")%string; simpl; [reflexivity|].
  destruct (Nat.eq_dec (String.length combination) 3) as [e|n]; simpl.
  - replace (String.length combination =? 3)%nat with true
      by (symmetry; apply Nat.eqb_eq; exact e).
    cbn [negb].
    destruct (_get_combination (char_at combination 0) tensor_1 tensor_2);
      simpl; [|reflexivity].
    destruct (_get_combination (char_at combination 2) tensor_1 tensor_2);
      simpl; reflexivity.
  - apply Nat.eqb_neq in n. rewrite n. reflexivity.
Qed.

Lemma _get_combination_short (combination : string) (tensor_1 tensor_2 : tensor) :
  String.length combination <> 3%nat ->
  _get_combination combination tensor_1 tensor_2 =
  if (combination =? "x")%string then Ok tensor_1
  else if (combination =? "y")%string then Ok tensor_2
  else Raise (ConfigurationError ("Invalid combination: " ++ combination)).
Proof.
  intros H. rewrite _get_combination_body.
  apply Nat.eqb_neq in H. rewrite H. reflexivity.
Qed.

End ValuePass.

(** ** Malformed tokens *)

(** C8: a token that is not the literal [x], not the literal [y] and not
    three characters long makes the dimension pass and the value pass raise
    [ConfigurationError] ("Invalid combination: " followed by the token). *)
Theorem malformed_token_raises
  (R : TensorRuntime) (combination : string)
  (tensor_1_dim tensor_2_dim : Z) (tensor_1 tensor_2 : tensor) :
  combination <> "x" ->
  combination <> "y" ->
  String.length combination <> 3%nat ->
  _get_combination_dim combination tensor_1_dim tensor_2_dim
    = Raise (ConfigurationError ("Invalid combination: " ++ combination)) /\
  _get_combination combination tensor_1 tensor_2
    = Raise (ConfigurationError ("Invalid combination: " ++ combination)).
Proof.
  intros Hx Hy Hlen.
  apply String.eqb_neq in Hx, Hy.
  rewrite _get_combination_dim_short, _get_combination_short by assumption.
  rewrite Hx, Hy. split; reflexivity.
Qed.

Lemma malformed_token_raises_witness :
  (_get_combination_dim "xy" 3 3
     = Raise (ConfigurationError "Invalid combination: xy") /\
   _get_combination (R := Dense.Qruntime) "xy"
       (Dense.vector [1#1; 2#1; 3#1]%Q) (Dense.vector [4#1; 5#1; 6#1]%Q)
     = Raise (ConfigurationError "Invalid combination: xy")) /\
  (_get_combination_dim "z" 3 3
     = Raise (ConfigurationError "Invalid combination: z") /\
   _get_combination (R := Dense.Qruntime) "z"
       (Dense.vector [1#1; 2#1; 3#1]%Q) (Dense.vector [4#1; 5#1; 6#1]%Q)
     = Raise (ConfigurationError "Invalid combination: z")).
Proof.
  split.
  - apply (malformed_token_raises Dense.Qruntime "xy");
      [discriminate | discriminate | simpl; lia].
  - apply (malformed_token_raises Dense.Qruntime "z");
      [discriminate | discriminate | simpl; lia].
Defined.

(** ** Binary tokens in the dimension pass *)

Lemma binary_not_literal (a op b c : ascii) :
  (binary a op b =? String c "")%string = false.
Proof.
  unfold binary; simpl. destruct (Ascii.eqb a c); reflexivity.
Qed.

Lemma _get_combination_dim_binary (a op b : ascii) (d1 d2 : Z) :
  _get_combination_dim (binary a op b) d1 d2 =
  first_tensor_dim <- _get_combination_dim (String a "") d1 d2 ;;
  second_tensor_dim <- _get_combination_dim (String b "") d1 d2 ;;
  if negb (first_tensor_dim =? second_tensor_dim)
  then Raise (ConfigurationError
                ("Tensor dims must match for operation "
                   ++ dquote ++ String op "" ++ dquote))
  else Ok first_tensor_dim.
Proof.
  rewrite _get_combination_dim_body, !binary_not_literal. reflexivity.
Qed.

(** C6: on a binary token whose operands resolve, the dimension pass raises
    [ConfigurationError] when the two operand dimensions differ and returns
    the common dimension when they are equal; [x*y] returns [d] when both
    dimensions are [d] and raises when they differ. *)
Theorem binary_dimension :
  (forall (a op b : ascii) (d1 d2 da db : Z),
     _get_combination_dim (String a "") d1 d2 = Ok da ->
     _get_combination_dim (String b "") d1 d2 = Ok db ->
     (da <> db ->
      _get_combination_dim (binary a op b) d1 d2
        = Raise (ConfigurationError
                   ("Tensor dims must match for operation "
                      ++ dquote ++ String op "" ++ dquote))) /\
     (da = db -> _get_combination_dim (binary a op b) d1 d2 = Ok da)) /\
  (forall d : Z, _get_combination_dim "x*y" d d = Ok d) /\
  (forall d1 d2 : Z,
     d1 <> d2 ->
     _get_combination_dim "x*y" d1 d2
       = Raise (ConfigurationError
                  ("Tensor dims must match for operation "
                     ++ dquote ++ "*" ++ dquote))).
Proof.
  assert (G : forall (a op b : ascii) (d1 d2 da db : Z),
     _get_combination_dim (String a "") d1 d2 = Ok da ->
     _get_combination_dim (String b "") d1 d2 = Ok db ->
     (da <> db ->
      _get_combination_dim (binary a op b) d1 d2
        = Raise (ConfigurationError
                   ("Tensor dims must match for operation "
                      ++ dquote ++ String op "" ++ dquote))) /\
     (da = db -> _get_combination_dim (binary a op b) d1 d2 = Ok da)).
  { intros a op b d1 d2 da db Ha Hb.
    rewrite _get_combination_dim_binary, Ha, Hb; simpl.
    split; intros H.
    - apply Z.eqb_neq in H. rewrite H. reflexivity.
    - apply Z.eqb_eq in H. rewrite H. reflexivity. }
  split; [exact G|]. split.
  - intros d.
    apply (G "x" "*" "y" d d d d)%char; reflexivity.
  - intros d1 d2 H.
    apply (G "x" "*" "y" d1 d2 d1 d2)%char; [reflexivity | reflexivity | exact H].
Qed.

Lemma binary_dimension_witness :
  _get_combination_dim "y-x" 3 4
    = Raise (ConfigurationError
               ("Tensor dims must match for operation "
                  ++ dquote ++ "-" ++ dquote)) /\
  _get_combination_dim "x/y" 5 5 = Ok 5 /\
  _get_combination_dim "x*y" 2 7
    = Raise (ConfigurationError
               ("Tensor dims must match for operation "
                  ++ dquote ++ "*" ++ dquote)).
Proof.
  destruct binary_dimension as (G & _ & P).
  split; [|split].
  - apply (G "y" "-" "x" 3 4 4 3)%char; [reflexivity | reflexivity | lia].
  - apply (G "x" "/" "y" 5 5 5 5)%char; reflexivity.
  - apply (P 2 7); lia.
Defined.

(** ** The combined dimension *)

(** C4: when every expression of the list has a dimension, the dimension
    pass returns the sum of these dimensions, taken in list order (for all
    integer dimensions, positive ones among them); for [x,y] this is
    [dim_x + dim_y], and for [x,x*y,y] with both dimensions 3 it is 9. *)
Theorem combined_dim_is_sum :
  (forall (combinations : list string) (dim_x dim_y : Z) (dims : list Z),
     Forall2 (fun c d => _get_combination_dim c dim_x dim_y = Ok d)
             combinations dims ->
     _get_combined_dim combinations dim_x dim_y = Ok (sum dims)) /\
  (forall dim_x dim_y : Z,
     _get_combined_dim ["x"; "y"] dim_x dim_y = Ok (dim_x + dim_y)) /\
  _get_combined_dim ["x"; "x*y"; "y"] 3 3 = Ok 9 /\
  split "," "x,x*y,y" = ["x"; "x*y"; "y"] /\
  split "," default_combination = ["x"; "y"].
Proof.
  split; [|split; [|split; [|split]]].
  - intros cs dx dy ds H. unfold _get_combined_dim.
    apply combination_dims_Ok in H. rewrite H. reflexivity.
  - intros dx dy. unfold _get_combined_dim; simpl.
    rewrite !_get_combination_dim_short by (simpl; lia); simpl.
    unfold sum; simpl. reflexivity.
  - vm_compute. reflexivity.
  - reflexivity.
  - reflexivity.
Qed.

Lemma combined_dim_is_sum_witness :
  _get_combined_dim ["y"; "x+y"; "x"; "x"] 4 4 = Ok (sum [4; 4; 4; 4]).
Proof.
  apply (proj1 combined_dim_is_sum ["y"; "x+y"; "x"; "x"] 4 4 [4; 4; 4; 4]).
  repeat constructor.
Defined.

(** ** An operator outside of [*], [/], [+], [-] *)

(** C1, at the token [x%y] with both dimensions 3: the value pass raises
    [ConfigurationError], the dimension pass returns 3. *)
Theorem unknown_operator_passes_dimension_check :
  _get_combination_dim "x%y" 3 3 = Ok 3 /\
  _get_combination (R := Dense.Qruntime) "x%y"
      (Dense.vector [1#1; 2#1; 3#1]%Q) (Dense.vector [4#1; 5#1; 6#1]%Q)
    = Raise (ConfigurationError "Invalid operation: %").
Proof.
  split; vm_compute; reflexivity.
Qed.

Section UnknownOperator.

Context {R : TensorRuntime}.

Lemma _get_combination_binary (a op b : ascii) (tensor_1 tensor_2 : tensor) :
  _get_combination (binary a op b) tensor_1 tensor_2 =
  first_tensor <- _get_combination (String a "") tensor_1 tensor_2 ;;
  second_tensor <- _get_combination (String b "") tensor_1 tensor_2 ;;
  if (String op "" =? "*")%string then t_mul first_tensor second_tensor
  else if (String op "" =? "/")%string then t_div first_tensor second_tensor
  else if (String op "" =? "+")%string then t_add first_tensor second_tensor
  else if (String op "" =? "-")%string then t_sub first_tensor second_tensor
  else Raise (ConfigurationError ("Invalid operation: " ++ String op "")).
Proof.
  rewrite _get_combination_body, !binary_not_literal. reflexivity.
Qed.

(** The value pass raises nothing but [ConfigurationError] on a token of
    three characters whose middle one is no operator. *)
Lemma _get_combination_unknown_operator
  (a op b : ascii) (tensor_1 tensor_2 : tensor) :
  op <> "*"%char -> op <> "/"%char -> op <> "+"%char -> op <> "-"%char ->
  raises_ConfigurationError
    (_get_combination (binary a op b) tensor_1 tensor_2).
Proof.
  intros H1 H2 H3 H4.
  assert (E : forall c, op <> c -> (String op "" =? String c "")%string = false).
  { intros c Hc. apply String.eqb_neq. congruence. }
  rewrite _get_combination_binary.
  rewrite !(_get_combination_short (String _ "")) by (simpl; lia).
  rewrite !E by assumption.
  apply raises_ConfigurationError_iff.
  repeat match goal with
         | |- context [if ?c then _ else _] => destruct c; simpl
         end; reflexivity.
Qed.

(** The dimension pass never looks at the operator: with operands that
    resolve to one dimension it returns that dimension. *)
Lemma _get_combination_dim_any_operator (a op b : ascii) (d1 d2 d : Z) :
  _get_combination_dim (String a "") d1 d2 = Ok d ->
  _get_combination_dim (String b "") d1 d2 = Ok d ->
  _get_combination_dim (binary a op b) d1 d2 = Ok d.
Proof.
  intros Ha Hb. rewrite _get_combination_dim_binary, Ha, Hb; simpl.
  rewrite Z.eqb_refl. reflexivity.
Qed.

End UnknownOperator.

(** ** The value of one expression *)

(** C5: the literal [x] evaluates to the first tensor, the literal [y] to
    the second, and a binary token applies [*], [/], [+] or [-] of the
    tensor library to its resolved operands; with rational vectors, [x*y]
    on [2,3] and [4,5] is [8,15], and [x-y] on [5,5] and [2,3] is [3,2]. *)
Theorem expression_value :
  (forall (R : TensorRuntime) (vector_x vector_y : tensor),
     _get_combination "x" vector_x vector_y = Ok vector_x /\
     _get_combination "y" vector_x vector_y = Ok vector_y /\
     forall (a b : ascii) (left_operand right_operand : tensor),
       _get_combination (String a "") vector_x vector_y = Ok left_operand ->
       _get_combination (String b "") vector_x vector_y = Ok right_operand ->
       _get_combination (binary a "*" b) vector_x vector_y
         = t_mul left_operand right_operand /\
       _get_combination (binary a "/" b) vector_x vector_y
         = t_div left_operand right_operand /\
       _get_combination (binary a "+" b) vector_x vector_y
         = t_add left_operand right_operand /\
       _get_combination (binary a "-" b) vector_x vector_y
         = t_sub left_operand right_operand) /\
  _combine_tensors (R := Dense.Qruntime) ["x*y"]
      (Dense.vector [2#1; 3#1]%Q) (Dense.vector [4#1; 5#1]%Q)
    = Ok (Dense.vector [8#1; 15#1]%Q) /\
  _combine_tensors (R := Dense.Qruntime) ["x-y"]
      (Dense.vector [5#1; 5#1]%Q) (Dense.vector [2#1; 3#1]%Q)
    = Ok (Dense.vector [3#1; 2#1]%Q).
Proof.
  split; [|split; vm_compute; reflexivity].
  intros R vx vy.
  rewrite !(_get_combination_short (String _ "")) by (simpl; lia); simpl.
  split; [reflexivity|]. split; [reflexivity|].
  intros a b ta tb Ha Hb.
  rewrite !_get_combination_binary, Ha, Hb; simpl.
  repeat split; reflexivity.
Qed.

Lemma expression_value_witness :
  _get_combination (R := Dense.Qruntime) "y/x"
      (Dense.vector [2#1; 4#1]%Q) (Dense.vector [6#1; 4#1]%Q)
    = t_div (TensorRuntime := Dense.Qruntime)
        (Dense.vector [6#1; 4#1]%Q) (Dense.vector [2#1; 4#1]%Q).
Proof.
  destruct expression_value as (G & _).
  apply (G Dense.Qruntime (Dense.vector [2#1; 4#1]%Q)
           (Dense.vector [6#1; 4#1]%Q)); reflexivity.
Defined.

(** ** Concatenation in list order *)

Section Concatenation.

Context {R : TensorRuntime}.

Lemma cat_all_Raise (e : exn) (rest : list tensor) :
  fold_left (fun acc t => combined <- acc ;; t_cat combined t) rest (Raise e)
  = Raise e.
Proof.
  induction rest as [|t rest IH]; simpl; [reflexivity | exact IH].
Qed.

Lemma cat_all_cons (first t : tensor) (rest : list tensor) :
  cat_all first (t :: rest) = (combined <- t_cat first t ;; cat_all combined rest).
Proof.
  unfold cat_all; simpl.
  destruct (t_cat first t) as [c|e]; simpl; [reflexivity | apply cat_all_Raise].
Qed.

Lemma combine_loop_cat_all
  (rest : list string) (tensor_1 tensor_2 : tensor) (values : list tensor) :
  Forall2 (fun c t => _get_combination c tensor_1 tensor_2 = Ok t)
          rest values ->
  forall combined_tensor,
    combine_loop rest tensor_1 tensor_2 combined_tensor
    = cat_all combined_tensor values.
Proof.
  induction 1 as [|c t rest values Hc _ IH]; intros acc; [reflexivity|].
  cbn [combine_loop]. rewrite Hc, cat_all_cons; simpl.
  destruct (t_cat acc t) as [acc'|e]; simpl; [apply IH | reflexivity].
Qed.

Lemma combine_loop_Ok
  (rest : list string) (tensor_1 tensor_2 combined_tensor result_ : tensor) :
  combine_loop rest tensor_1 tensor_2 combined_tensor = Ok result_ ->
  exists values,
    Forall2 (fun c t => _get_combination c tensor_1 tensor_2 = Ok t)
            rest values /\
    cat_all combined_tensor values = Ok result_.
Proof.
  revert combined_tensor;
    induction rest as [|c rest IH]; intros acc H; cbn [combine_loop] in H.
  - exists []. split; [constructor | exact H].
  - apply bind_Ok_inv in H as (t & Ht & H).
    apply bind_Ok_inv in H as (acc' & Hacc & H).
    destruct (IH _ H) as (values & Hvalues & Hcat).
    exists (t :: values). split; [constructor; assumption|].
    rewrite cat_all_cons, Hacc. exact Hcat.
Qed.

Lemma _combine_tensors_cat_all
  (combinations : list string) (tensor_1 tensor_2 first : tensor)
  (rest : list tensor) :
  Forall2 (fun c t => _get_combination c tensor_1 tensor_2 = Ok t)
          combinations (first :: rest) ->
  _combine_tensors combinations tensor_1 tensor_2 = cat_all first rest.
Proof.
  intros H. inversion H as [|c ? cs ? Hc Hcs]; subst.
  unfold _combine_tensors. rewrite Hc; simpl.
  apply combine_loop_cat_all; assumption.
Qed.

Lemma _combine_tensors_Ok
  (combinations : list string) (tensor_1 tensor_2 result_ : tensor) :
  _combine_tensors combinations tensor_1 tensor_2 = Ok result_ ->
  exists first rest,
    Forall2 (fun c t => _get_combination c tensor_1 tensor_2 = Ok t)
            combinations (first :: rest) /\
    cat_all first rest = Ok result_.
Proof.
  destruct combinations as [|c cs]; simpl; [discriminate|].
  intros H. apply bind_Ok_inv in H as (first & Hc & H).
  destruct (combine_loop_Ok _ _ _ _ _ H) as (rest & Hrest & Hcat).
  exists first, rest. split; [constructor; assumption | exact Hcat].
Qed.

End Concatenation.

Section DenseVectors.

Variable A : Type.
Variables e_mul e_div e_add e_sub : A -> A -> A.
Variable e_zero : A.

Lemma shape_eqb_refl (s : list nat) : Dense.shape_eqb s s = true.
Proof.
  unfold Dense.shape_eqb. destruct (list_eq_dec Nat.eq_dec s s); congruence.
Qed.

(** Concatenating two vectors appends their elements. *)
Lemma cat_vector (l1 l2 : list A) :
  Dense.cat A (Dense.vector l1) (Dense.vector l2) = Ok (Dense.vector (l1 ++ l2)).
Proof.
  unfold Dense.cat, Dense.vector; simpl.
  rewrite !firstn_all, app_nil_r, length_app. reflexivity.
Qed.

End DenseVectors.

(** C7: the value pass concatenates the values of the expressions along the
    last axis from left to right, in the order of the list; [x,y] gives
    [x] followed by [y] and [y,x] gives [y] followed by [x], row by row. *)
Theorem concatenation_follows_list_order :
  (forall (R : TensorRuntime) (combinations : list string)
          (tensor_1 tensor_2 first : tensor) (rest : list tensor),
     Forall2 (fun c t => _get_combination c tensor_1 tensor_2 = Ok t)
             combinations (first :: rest) ->
     _combine_tensors combinations tensor_1 tensor_2 = cat_all first rest) /\
  (forall (R : TensorRuntime) (tensor_1 tensor_2 : tensor),
     _combine_tensors ["x"; "y"] tensor_1 tensor_2 = t_cat tensor_1 tensor_2 /\
     _combine_tensors ["y"; "x"] tensor_1 tensor_2 = t_cat tensor_2 tensor_1) /\
  (forall (A : Type) (e_mul e_div e_add e_sub : A -> A -> A) (e_zero : A)
          (xs ys : list A),
     let R := Dense.runtime A e_mul e_div e_add e_sub e_zero in
     _combine_tensors (R := R) ["x"; "y"] (Dense.vector xs) (Dense.vector ys)
       = Ok (Dense.vector (xs ++ ys)) /\
     _combine_tensors (R := R) ["y"; "x"] (Dense.vector xs) (Dense.vector ys)
       = Ok (Dense.vector (ys ++ xs))) /\
  _combine_tensors (R := Dense.Qruntime) ["x"; "y"]
      (Dense.vector [1#1; 2#1]%Q) (Dense.vector [3#1; 4#1]%Q)
    = Ok (Dense.vector [1#1; 2#1; 3#1; 4#1]%Q) /\
  _combine_tensors (R := Dense.Qruntime) ["x"; "y"]
      (Dense.vector [1#1; 2#1]%Q) (Dense.vector [3#1]%Q)
    <> _combine_tensors (R := Dense.Qruntime) ["y"; "x"]
         (Dense.vector [1#1; 2#1]%Q) (Dense.vector [3#1]%Q) /\
  _combine_tensors (R := Dense.Qruntime) ["x"; "y"]
      (Dense.matrix 2 [[1#1; 2#1]; [3#1; 4#1]]%Q)
      (Dense.matrix 1 [[5#1]; [6#1]]%Q)
    = Ok (Dense.matrix 3 [[1#1; 2#1; 5#1]; [3#1; 4#1; 6#1]]%Q) /\
  _combine_tensors (R := Dense.Qruntime) ["y"; "x"]
      (Dense.matrix 2 [[1#1; 2#1]; [3#1; 4#1]]%Q)
      (Dense.matrix 1 [[5#1]; [6#1]]%Q)
    = Ok (Dense.matrix 3 [[5#1; 1#1; 2#1]; [6#1; 3#1; 4#1]]%Q).
Proof.
  assert (P : forall (R : TensorRuntime) (tensor_1 tensor_2 : tensor),
     _combine_tensors ["x"; "y"] tensor_1 tensor_2 = t_cat tensor_1 tensor_2 /\
     _combine_tensors ["y"; "x"] tensor_1 tensor_2 = t_cat tensor_2 tensor_1).
  { intros R t1 t2. unfold _combine_tensors; cbn [combine_loop].
    rewrite !_get_combination_short by (simpl; lia); simpl.
    split; [destruct (t_cat t1 t2) | destruct (t_cat t2 t1)]; reflexivity. }
  split; [|split; [exact P|split; [|split; [|split; [|split]]]]].
  - intros R. apply @_combine_tensors_cat_all.
  - intros A e_mul e_div e_add e_sub e_zero xs ys R.
    destruct (P R (Dense.vector xs) (Dense.vector ys)) as [-> ->].
    split; apply cat_vector.
  - vm_compute. reflexivity.
  - vm_compute. discriminate.
  - vm_compute. reflexivity.
  - vm_compute. reflexivity.
Qed.

Lemma concatenation_follows_list_order_witness :
  _combine_tensors (R := Dense.Qruntime) ["y"; "x*y"; "x"]
      (Dense.vector [2#1; 3#1]%Q) (Dense.vector [4#1; 5#1]%Q)
  = cat_all (R := Dense.Qruntime) (Dense.vector [4#1; 5#1]%Q)
      [Dense.vector [8#1; 15#1]%Q; Dense.vector [2#1; 3#1]%Q].
Proof.
  apply (proj1 concatenation_follows_list_order Dense.Qruntime).
  repeat constructor.
Defined.

(** ** The two passes agree *)

Section Agreement.

Context {R : TensorRuntime} {L : TensorLaws R}.

Variables (tensor_1 tensor_2 : tensor).

Lemma operand_last_dim (s : string) (d : Z) (t : tensor) :
  String.length s <> 3%nat ->
  _get_combination_dim s (last_dim tensor_1) (last_dim tensor_2) = Ok d ->
  _get_combination s tensor_1 tensor_2 = Ok t ->
  last_dim t = d.
Proof.
  intros Hs. rewrite _get_combination_dim_short, _get_combination_short
    by assumption.
  destruct (s =? "x")%string; [congruence|].
  destruct (s =? "y")%string; [congruence | discriminate].
Qed.

(** One expression: the last axis of its value has the length that the
    dimension pass computed. *)
Lemma expression_last_dim (combination : string) (d : Z) (t : tensor) :
  _get_combination_dim combination (last_dim tensor_1) (last_dim tensor_2)
    = Ok d ->
  _get_combination combination tensor_1 tensor_2 = Ok t ->
  last_dim t = d.
Proof.
  destruct (Nat.eq_dec (String.length combination) 3) as [H3|H3];
    [|apply operand_last_dim; assumption].
  rewrite _get_combination_dim_body, _get_combination_body.
  destruct (combination =? "x")%string; [congruence|].
  destruct (combination =? "y")%string; [congruence|].
  destruct (negb (String.length combination =? 3)%nat); [discriminate|].
  intros Hd Ht.
  apply bind_Ok_inv in Hd as (da & Hda & Hd).
  apply bind_Ok_inv in Hd as (db & Hdb & Hd).
  apply bind_Ok_inv in Ht as (ta & Hta & Ht).
  apply bind_Ok_inv in Ht as (tb & Htb & Ht).
  apply (operand_last_dim _ _ _ (char_at_length_not_3 _ _) Hda) in Hta.
  apply (operand_last_dim _ _ _ (char_at_length_not_3 _ _) Hdb) in Htb.
  cbv zeta in Hd, Ht.
  destruct (da =? db) eqn:E; simpl in Hd; [|discriminate].
  apply Z.eqb_eq in E. inversion Hd; subst d.
  assert (Hab : last_dim ta = last_dim tb) by congruence.
  rewrite <- Hta.
  repeat match type of Ht with
         | (if ?c then _ else _) = _ => destruct c
         end;
    [ eapply mul_last_dim | eapply div_last_dim
    | eapply add_last_dim | eapply sub_last_dim | discriminate ];
    eassumption.
Qed.

Lemma cat_all_last_dim (rest : list tensor) :
  forall first result_ : tensor,
    cat_all first rest = Ok result_ ->
    last_dim result_ = last_dim first + sum (map last_dim rest).
Proof.
  induction rest as [|t rest IH]; intros first r H.
  - inversion H; subst. unfold sum; simpl. lia.
  - rewrite cat_all_cons in H. apply bind_Ok_inv in H as (c & Hc & H).
    apply IH in H. apply cat_last_dim in Hc.
    cbn [map]. rewrite sum_cons. lia.
Qed.

Lemma values_last_dims (combinations : list string) :
  forall (dims : list Z) (values : list tensor),
    Forall2 (fun c d =>
               _get_combination_dim c (last_dim tensor_1) (last_dim tensor_2)
               = Ok d) combinations dims ->
    Forall2 (fun c t => _get_combination c tensor_1 tensor_2 = Ok t)
            combinations values ->
    map last_dim values = dims.
Proof.
  induction combinations as [|c cs IH]; intros dims values Hd Hv;
    inversion Hd; inversion Hv; subst; [reflexivity|].
  cbn [map]. f_equal; [eapply expression_last_dim; eassumption | auto].
Qed.

End Agreement.

(** For every tensor library with the shape laws: when both passes
    succeed they agree, expression by expression and in total. *)
Lemma last_dim_agreement
  (R : TensorRuntime) (L : TensorLaws R)
  (combinations : list string) (dim_x dim_y : Z) (tensor_1 tensor_2 : tensor)
  (combined_dim : Z) (combined_tensor : tensor) :
  last_dim tensor_1 = dim_x ->
  last_dim tensor_2 = dim_y ->
  _get_combined_dim combinations dim_x dim_y = Ok combined_dim ->
  _combine_tensors combinations tensor_1 tensor_2 = Ok combined_tensor ->
  last_dim combined_tensor = combined_dim /\
  exists (dims : list Z) (values : list tensor),
    Forall2 (fun c d => _get_combination_dim c dim_x dim_y = Ok d)
            combinations dims /\
    Forall2 (fun c t => _get_combination c tensor_1 tensor_2 = Ok t)
            combinations values /\
    map last_dim values = dims /\
    combined_dim = sum dims.
Proof.
  intros <- <- Hd Hv.
  unfold _get_combined_dim in Hd.
  apply bind_Ok_inv in Hd as (dims & Hdims & Hd). inversion Hd; subst.
  apply combination_dims_Ok in Hdims.
  apply _combine_tensors_Ok in Hv as (first & rest & Hvalues & Hcat).
  pose proof (values_last_dims _ _ _ _ _ Hdims Hvalues) as Hmap.
  apply cat_all_last_dim in Hcat.
  split.
  - rewrite Hcat, <- Hmap. cbn [map]. rewrite sum_cons. reflexivity.
  - exists dims, (first :: rest). auto.
Qed.

(** The dense tensors satisfy the shape laws, whatever the elements are. *)
Lemma Dense_laws (A : Type) (e_mul e_div e_add e_sub : A -> A -> A) (e_zero : A) :
  TensorLaws (Dense.runtime A e_mul e_div e_add e_sub e_zero).
Proof.
  assert (E : forall f (a b c : Dense.dense A),
             Dense.elementwise A f a b = Ok c ->
             Dense.size_last A c = Dense.size_last A a).
  { intros f a b c. unfold Dense.elementwise.
    destruct (Dense.shape_eqb _ _); intros H; inversion H; reflexivity. }
  constructor; simpl; try (intros a b c H _; exact (E _ _ _ _ H)).
  - intros a b c. unfold Dense.cat, Dense.size_last.
    destruct (Dense.shape a) as [|sa0 sa]; [discriminate|].
    destruct (Dense.shape b) as [|sb0 sb]; [discriminate|].
    destruct (Dense.shape_eqb _ _); intros H; inversion H; simpl.
    rewrite last_last. lia.
  - intros n t. unfold Dense.new, Dense.size_last.
    destruct (n <? 0) eqn:Hn; intros H; inversion H; simpl.
    apply Z.ltb_ge in Hn. lia.
Qed.

Section DenseProduction.

Variable A : Type.
Variables e_mul e_div e_add e_sub : A -> A -> A.
Variable e_zero : A.

Let Rd : TensorRuntime := Dense.runtime A e_mul e_div e_add e_sub e_zero.

Variables xs ys : list A.

Lemma zip_with_length (f : A -> A -> A) (l1 l2 : list A) :
  length l1 = length l2 -> length (zip_with f l1 l2) = length l1.
Proof.
  revert l2; induction l1 as [|a l1 IH]; intros [|b l2] H; simpl in *;
    try discriminate; [reflexivity|].
  f_equal. apply IH. congruence.
Qed.

Lemma elementwise_vector (f : A -> A -> A) (l1 l2 : list A) :
  length l1 = length l2 ->
  Dense.elementwise A f (Dense.vector l1) (Dense.vector l2)
  = Ok (Dense.vector (zip_with f l1 l2)).
Proof.
  intros H. unfold Dense.elementwise, Dense.vector.
  cbn [Dense.shape Dense.data].
  rewrite (zip_with_length f l1 l2 H), H, shape_eqb_refl. reflexivity.
Qed.

Lemma is_operand_cases (c : ascii) :
  is_operand c = true -> c = "x"%char \/ c = "y"%char.
Proof.
  unfold is_operand. intros H. apply orb_true_iff in H.
  destruct H as [H|H]; apply Ascii.eqb_eq in H; auto.
Qed.

Lemma is_operator_cases (c : ascii) :
  is_operator c = true ->
  c = "*"%char \/ c = "/"%char \/ c = "+"%char \/ c = "-"%char.
Proof.
  unfold is_operator. intros H. repeat (apply orb_true_iff in H as [H|H]);
    apply Ascii.eqb_eq in H; auto.
Qed.

(** An operand of a valid expression is a vector of the length that the
    dimension pass gives it. *)
Lemma dense_operand (c : ascii) :
  is_operand c = true ->
  exists l,
    _get_combination (R := Rd) (String c "") (Dense.vector xs) (Dense.vector ys)
      = Ok (Dense.vector l) /\
    _get_combination_dim (String c "")
        (Z.of_nat (length xs)) (Z.of_nat (length ys))
      = Ok (Z.of_nat (length l)).
Proof.
  intros H. rewrite _get_combination_short, _get_combination_dim_short
    by (simpl; lia).
  destruct (is_operand_cases c H) as [-> | ->]; simpl; eauto.
Qed.

(** On vectors, a valid expression that has a dimension has a value, a
    vector of that length. *)
Lemma dense_expression (combination : string) (d : Z) :
  valid_expression combination = true ->
  _get_combination_dim combination
      (Z.of_nat (length xs)) (Z.of_nat (length ys)) = Ok d ->
  exists l,
    _get_combination (R := Rd) combination (Dense.vector xs) (Dense.vector ys)
      = Ok (Dense.vector l) /\
    Z.of_nat (length l) = d.
Proof.
  destruct combination as [|a [|op [|b [|? ?]]]]; simpl; try discriminate.
  - intros Ha Hd. destruct (dense_operand a Ha) as (l & Hv & Hd').
    exists l. split; [exact Hv | congruence].
  - intros H. apply andb_true_iff in H as [H Hb].
    apply andb_true_iff in H as [Ha Hop].
    destruct (dense_operand a Ha) as (la & Hva & Hda).
    destruct (dense_operand b Hb) as (lb & Hvb & Hdb).
    change (String a (String op (String b ""))) with (binary a op b).
    rewrite _get_combination_dim_binary, _get_combination_binary.
    rewrite Hda, Hdb, Hva, Hvb; simpl.
    destruct (Z.of_nat (length la) =? Z.of_nat (length lb)) eqn:E; simpl;
      [|discriminate].
    apply Z.eqb_eq, Nat2Z.inj in E. intros [= <-].
    destruct (is_operator_cases op Hop) as [-> | [-> | [-> | ->]]]; simpl;
      rewrite (elementwise_vector _ la lb E);
      eexists; (split; [reflexivity|]); simpl;
      rewrite zip_with_length by exact E; reflexivity.
Qed.

Lemma dense_combine_loop (rest : list string) :
  forall (dims : list Z) (l : list A),
    forallb valid_expression rest = true ->
    combination_dims rest (Z.of_nat (length xs)) (Z.of_nat (length ys))
      = Ok dims ->
    exists l',
      combine_loop (R := Rd) rest (Dense.vector xs) (Dense.vector ys)
                   (Dense.vector l)
        = Ok (Dense.vector l') /\
      Z.of_nat (length l') = Z.of_nat (length l) + sum dims.
Proof.
  induction rest as [|c rest IH]; intros dims l Hvalid Hdims.
  - inversion Hdims; subst. exists l. split; [reflexivity|].
    unfold sum; simpl. lia.
  - cbn [forallb] in Hvalid. apply andb_true_iff in Hvalid as [Hc Hrest].
    cbn [combination_dims] in Hdims.
    apply bind_Ok_inv in Hdims as (d & Hd & Hdims).
    apply bind_Ok_inv in Hdims as (ds & Hds & Hdims). inversion Hdims; subst.
    destruct (dense_expression c d Hc Hd) as (lc & Hv & Hlen).
    destruct (IH ds (l ++ lc)%list Hrest Hds) as (l' & Hloop & Hl').
    exists l'. cbn [combine_loop]. rewrite Hv. cbn [bind].
    change (@t_cat Rd (Dense.vector l) (Dense.vector lc)) with
      (Dense.cat A (Dense.vector l) (Dense.vector lc)).
    rewrite cat_vector. cbn [bind]. split; [exact Hloop|].
    rewrite Hl', length_app, sum_cons. lia.
Qed.

(** On vectors, a list of valid expressions on which the dimension pass
    succeeds has a value: a vector of the combined dimension. *)
Lemma dense_combine_tensors (combinations : list string) (combined_dim : Z) :
  combinations <> [] ->
  forallb valid_expression combinations = true ->
  _get_combined_dim combinations
      (Z.of_nat (length xs)) (Z.of_nat (length ys)) = Ok combined_dim ->
  exists l,
    _combine_tensors (R := Rd) combinations
        (Dense.vector xs) (Dense.vector ys) = Ok (Dense.vector l) /\
    Z.of_nat (length l) = combined_dim.
Proof.
  destruct combinations as [|c rest]; [contradiction|]. intros _ Hvalid Hd.
  cbn [forallb] in Hvalid. apply andb_true_iff in Hvalid as [Hc Hrest].
  unfold _get_combined_dim in Hd. cbn [combination_dims] in Hd.
  apply bind_Ok_inv in Hd as (dims & Hdims & Hd). inversion Hd; subst.
  apply bind_Ok_inv in Hdims as (d & Hd' & Hdims).
  apply bind_Ok_inv in Hdims as (ds & Hds & Hdims). inversion Hdims; subst.
  destruct (dense_expression c d Hc Hd') as (lc & Hv & Hlen).
  destruct (dense_combine_loop rest ds lc Hrest Hds) as (l & Hloop & Hl).
  exists l. unfold _combine_tensors. rewrite Hv. cbn [bind].
  split; [exact Hloop|]. rewrite Hl, sum_cons. lia.
Qed.

End DenseProduction.

(** C2: when the dimension pass succeeds on a list of expressions and the
    value pass returns a tensor for inputs whose last axes have the lengths
    given to the dimension pass, the two passes agree expression by
    expression, in list order, and the last axis of the concatenated tensor
    has the length returned by the dimension pass; on vectors and valid
    expressions the value pass does return such a tensor. *)
Theorem value_pass_matches_dimension_pass :
  (forall (R : TensorRuntime) (L : TensorLaws R)
          (combinations : list string) (dim_x dim_y : Z)
          (tensor_1 tensor_2 : tensor)
          (combined_dim : Z) (combined_tensor : tensor),
     last_dim tensor_1 = dim_x ->
     last_dim tensor_2 = dim_y ->
     _get_combined_dim combinations dim_x dim_y = Ok combined_dim ->
     _combine_tensors combinations tensor_1 tensor_2 = Ok combined_tensor ->
     last_dim combined_tensor = combined_dim /\
     exists (dims : list Z) (values : list tensor),
       Forall2 (fun c d => _get_combination_dim c dim_x dim_y = Ok d)
               combinations dims /\
       Forall2 (fun c t => _get_combination c tensor_1 tensor_2 = Ok t)
               combinations values /\
       map last_dim values = dims /\
       combined_dim = sum dims) /\
  (forall (A : Type) (e_mul e_div e_add e_sub : A -> A -> A) (e_zero : A)
          (combinations : list string) (xs ys : list A) (combined_dim : Z),
     let R := Dense.runtime A e_mul e_div e_add e_sub e_zero in
     combinations <> [] ->
     forallb valid_expression combinations = true ->
     _get_combined_dim combinations
         (last_dim (TensorRuntime := R) (Dense.vector xs))
         (last_dim (TensorRuntime := R) (Dense.vector ys))
       = Ok combined_dim ->
     exists combined_tensor : @tensor R,
       _combine_tensors (R := R) combinations
           (Dense.vector xs) (Dense.vector ys) = Ok combined_tensor /\
       last_dim combined_tensor = combined_dim).
Proof.
  split.
  - intros R L. apply last_dim_agreement. exact L.
  - intros A e_mul e_div e_add e_sub e_zero cs xs ys n R Hne Hvalid Hd.
    destruct (dense_combine_tensors A e_mul e_div e_add e_sub e_zero
                xs ys cs n Hne Hvalid Hd) as (l & Hv & Hl).
    exists (Dense.vector l). split; [exact Hv | exact Hl].
Qed.

Lemma value_pass_matches_dimension_pass_witness :
  (last_dim (TensorRuntime := Dense.Qruntime)
     (Dense.vector [1#1; 2#1; 3#1; 8#1; 3#1; 4#1]%Q) = 6 /\
   exists (dims : list Z) (values : list (@tensor Dense.Qruntime)),
     Forall2 (fun c d => _get_combination_dim c 2 2 = Ok d)
             ["x"; "x*y"; "y"] dims /\
     Forall2 (fun c t =>
                _get_combination (R := Dense.Qruntime) c
                  (Dense.vector [1#1; 2#1]%Q) (Dense.vector [3#1; 4#1]%Q)
                = Ok t)
             ["x"; "x*y"; "y"] values /\
     map last_dim values = dims /\
     6 = sum dims) /\
  (exists combined_tensor : @tensor Dense.Qruntime,
     _combine_tensors (R := Dense.Qruntime) ["x"; "x*y"; "y"]
         (Dense.vector [1#1; 2#1]%Q) (Dense.vector [3#1; 4#1]%Q)
       = Ok combined_tensor /\
     last_dim combined_tensor = 6).
Proof.
  destruct value_pass_matches_dimension_pass as [G P]. split.
  - apply (G Dense.Qruntime (Dense_laws Q Qmult Qdiv Qplus Qminus 0%Q)
             ["x"; "x*y"; "y"] 2 2
             (Dense.vector [1#1; 2#1]%Q) (Dense.vector [3#1; 4#1]%Q)
             6 (Dense.vector [1#1; 2#1; 3#1; 8#1; 3#1; 4#1]%Q));
      vm_compute; reflexivity.
  - apply (P Q Qmult Qdiv Qplus Qminus 0%Q ["x"; "x*y"; "y"]
             [1#1; 2#1]%Q [3#1; 4#1]%Q 6);
      [discriminate | reflexivity | vm_compute; reflexivity].
Defined.

(** ** The constructor *)

Section Constructor.

Context {R : TensorRuntime}.

(** A failure of the dimension pass is the failure of the constructor. *)
Lemma __init___dimension_error
  (d1 d2 : Z) (combination : string) (activation : tensor -> result tensor) :
  raises_ConfigurationError
    (combination_dims (split "," combination) d1 d2) ->
  raises_ConfigurationError (__init__ d1 d2 combination activation).
Proof.
  intros [msg H]. exists msg.
  unfold __init__, _get_combined_dim. rewrite H. reflexivity.
Qed.

(** The constructor rejects a combination string as soon as one of its
    expressions has no dimension. *)
Lemma __init___rejects
  (d1 d2 : Z) (combination : string) (activation : tensor -> result tensor)
  (c : string) :
  In c (split "," combination) ->
  (exists e, _get_combination_dim c d1 d2 = Raise e) ->
  raises_ConfigurationError (__init__ d1 d2 combination activation).
Proof.
  intros Hin He. apply __init___dimension_error.
  eapply combination_dims_In_raises; eassumption.
Qed.

Lemma __init___Ok
  (d1 d2 : Z) (combination : string) (activation : tensor -> result tensor)
  (self : LinearSimilarity) :
  __init__ d1 d2 combination activation = Ok self ->
  exists dims,
    combination_dims (split "," combination) d1 d2 = Ok dims /\
    _combinations self = split "," combination /\
    t_new (sum dims) = Ok (_weight_vector self) /\
    t_new 1 = Ok (_bias self) /\
    _activation self = activation.
Proof.
  unfold __init__, _get_combined_dim. intros H.
  apply bind_Ok_inv in H as (n & Hn & H).
  apply bind_Ok_inv in Hn as (dims & Hdims & Hn). inversion Hn; subst n.
  apply bind_Ok_inv in H as (w & Hw & H).
  apply bind_Ok_inv in H as (b & Hb & H).
  inversion H; subst; simpl. exists dims. auto.
Qed.

End Constructor.

Lemma split_trailing (sep : ascii) (s : string) :
  split sep (s ++ String sep "") = (split sep s ++ [""])%list.
Proof.
  induction s as [|c s IH]; simpl.
  - rewrite Ascii.eqb_refl. reflexivity.
  - destruct (Ascii.eqb c sep); [rewrite IH; reflexivity|].
    rewrite IH. pose proof (split_not_nil sep s) as Hne.
    destruct (split sep s); [contradiction | reflexivity].
Qed.

(** C10: the constructor raises [ConfigurationError] on every combination
    string that has an empty segment; the empty string (one empty segment),
    [x,,y] and every string that ends with a comma are such strings. *)
Theorem empty_segment_rejected :
  (forall (R : TensorRuntime) (tensor_1_dim tensor_2_dim : Z)
          (combination : string) (activation : tensor -> result tensor),
     In "" (split "," combination) ->
     raises_ConfigurationError
       (__init__ tensor_1_dim tensor_2_dim combination activation)) /\
  (forall (R : TensorRuntime) (tensor_1_dim tensor_2_dim : Z)
          (activation : tensor -> result tensor),
     split "," "" = [""] /\
     __init__ tensor_1_dim tensor_2_dim "" activation
       = Raise (ConfigurationError "Invalid combination: ") /\
     split "," "x,,y" = ["x"; ""; "y"] /\
     __init__ tensor_1_dim tensor_2_dim "x,,y" activation
       = Raise (ConfigurationError "Invalid combination: ") /\
     split "," "x,y," = ["x"; "y"; ""] /\
     __init__ tensor_1_dim tensor_2_dim "x,y," activation
       = Raise (ConfigurationError "Invalid combination: ")) /\
  (forall prefix : string, In "" (split "," (prefix ++ ","))).
Proof.
  split; [|split].
  - intros R d1 d2 combination activation Hin.
    apply (__init___rejects d1 d2 combination activation "" Hin).
    rewrite _get_combination_dim_short by (simpl; lia). simpl. eauto.
  - intros R d1 d2 activation.
    unfold __init__, _get_combined_dim; simpl.
    rewrite !_get_combination_dim_short by (simpl; lia). simpl.
    repeat split; reflexivity.
  - intros prefix. rewrite split_trailing. apply in_or_app.
    right. left. reflexivity.
Qed.

Lemma empty_segment_rejected_witness :
  raises_ConfigurationError
    (__init__ (R := Dense.Qruntime) 3 3 ",x*y" default_activation).
Proof.
  apply (proj1 empty_segment_rejected Dense.Qruntime 3 3 ",x*y").
  simpl. left. reflexivity.
Defined.

(** ** What the constructor lets through *)

(** C3, at the combination string [x%y] with both dimensions 3: the
    constructor returns an object with a weight vector of 3 entries, and
    the [ConfigurationError] for the operator comes from the value pass of
    the first forward call. *)
Theorem unknown_operator_accepted_by_constructor :
  exists self : @LinearSimilarity Dense.Qruntime,
    __init__ 3 3 "x%y" default_activation = Ok self /\
    _combinations self = ["x%y"] /\
    last_dim (_weight_vector self) = 3 /\
    _combine_tensors (R := Dense.Qruntime) (_combinations self)
        (Dense.vector [1#1; 2#1; 3#1]%Q) (Dense.vector [4#1; 5#1; 6#1]%Q)
      = Raise (ConfigurationError "Invalid operation: %").
Proof.
  eexists. split; [vm_compute; reflexivity|].
  split; [reflexivity|]. split; vm_compute; reflexivity.
Qed.

Section ConstructorRejects.

Context {R : TensorRuntime}.

(** The constructor does reject a malformed token. *)
Lemma __init___malformed_token
  (d1 d2 : Z) (combination : string) (activation : tensor -> result tensor)
  (c : string) :
  In c (split "," combination) ->
  c <> "x" -> c <> "y" -> String.length c <> 3%nat ->
  raises_ConfigurationError (__init__ d1 d2 combination activation).
Proof.
  intros Hin Hx Hy Hlen. apply (__init___rejects _ _ _ _ c Hin).
  apply String.eqb_neq in Hx, Hy.
  rewrite _get_combination_dim_short, Hx, Hy by assumption. eauto.
Qed.

(** The constructor does reject a binary token whose operands have
    different dimensions. *)
Lemma __init___dimension_mismatch
  (d1 d2 : Z) (combination : string) (activation : tensor -> result tensor)
  (a op b : ascii) (da db : Z) :
  In (binary a op b) (split "," combination) ->
  _get_combination_dim (String a "") d1 d2 = Ok da ->
  _get_combination_dim (String b "") d1 d2 = Ok db ->
  da <> db ->
  raises_ConfigurationError (__init__ d1 d2 combination activation).
Proof.
  intros Hin Ha Hb Hab. apply (__init___rejects _ _ _ _ _ Hin).
  rewrite _get_combination_dim_binary, Ha, Hb; simpl.
  apply Z.eqb_neq in Hab. rewrite Hab; simpl. eauto.
Qed.

End ConstructorRejects.

(** * Properties of the whole class *)

(** ** The tokens of the constructor *)

Lemma concat_cons (sep x : string) (l : list string) :
  l <> [] -> String.concat sep (x :: l) = x ++ sep ++ String.concat sep l.
Proof.
  destruct l as [|y l]; [contradiction | reflexivity].
Qed.

Lemma join_split (s : string) : String.concat "," (split "," s) = s.
Proof.
  induction s as [|c s IH]; [reflexivity|].
  cbn [split]. destruct (Ascii.eqb c ",") eqn:E.
  - apply Ascii.eqb_eq in E. subst c.
    rewrite concat_cons by apply split_not_nil. rewrite IH. reflexivity.
  - destruct (split "," s) as [|p [|q ps]] eqn:Hs.
    + exfalso. exact (split_not_nil _ _ Hs).
    + simpl in *. congruence.
    + cbn [String.concat] in *. rewrite <- IH. reflexivity.
Qed.

Lemma split_no_separator (s : string) :
  Forall (fun piece => contains "," piece = false) (split "," s).
Proof.
  induction s as [|c s IH]; [repeat constructor|].
  cbn [split]. destruct (Ascii.eqb c ",") eqn:E.
  - constructor; [reflexivity | exact IH].
  - destruct (split "," s) as [|p ps]; [repeat constructor; simpl; now rewrite E|].
    inversion IH; subst. constructor; [|assumption].
    simpl. rewrite E. assumption.
Qed.

Lemma split_length (s : string) :
  length (split "," s) = S (count_char "," s).
Proof.
  induction s as [|c s IH]; [reflexivity|].
  cbn [split count_char]. destruct (Ascii.eqb c ","); simpl.
  - rewrite IH. reflexivity.
  - destruct (split "," s) as [|p ps]; simpl in *; [discriminate | exact IH].
Qed.

Lemma split_piece_then (piece rest : string) :
  contains "," piece = false ->
  split "," (piece ++ String "," rest) = piece :: split "," rest.
Proof.
  induction piece as [|c piece IH]; intros H; [reflexivity|].
  simpl in H. apply orb_false_iff in H as [Hc H].
  cbn [append split]. rewrite Hc. rewrite (IH H). reflexivity.
Qed.

Lemma split_piece (piece : string) :
  contains "," piece = false -> split "," piece = [piece].
Proof.
  induction piece as [|c piece IH]; intros H; [reflexivity|].
  simpl in H. apply orb_false_iff in H as [Hc H].
  cbn [split]. rewrite Hc, (IH H). reflexivity.
Qed.

Lemma split_join (tokens : list string) :
  tokens <> [] ->
  Forall (fun t => contains "," t = false) tokens ->
  split "," (String.concat "," tokens) = tokens.
Proof.
  induction tokens as [|t tokens IH]; [contradiction|]. intros _ H.
  inversion H as [|? ? Ht Hts]; subst.
  destruct tokens as [|t' tokens]; [apply split_piece; assumption|].
  rewrite concat_cons by discriminate.
  change ("," ++ String.concat "," (t' :: tokens))
    with (String "," (String.concat "," (t' :: tokens))).
  rewrite split_piece_then by assumption.
  rewrite IH by (discriminate || assumption). reflexivity.
Qed.

(** X1: the tokens that a successful constructor stores are the comma
    separated pieces of the combination string: joined with commas they
    give the string back, none of them contains a comma, and there is one
    more of them than the string has commas. *)
Theorem constructor_tokens
  (R : TensorRuntime) (tensor_1_dim tensor_2_dim : Z) (combination : string)
  (activation : tensor -> result tensor) (self : LinearSimilarity) :
  __init__ tensor_1_dim tensor_2_dim combination activation = Ok self ->
  String.concat "," (_combinations self) = combination /\
  Forall (fun t => contains "," t = false) (_combinations self) /\
  length (_combinations self) = S (count_char "," combination).
Proof.
  intros H. apply __init___Ok in H as (_ & _ & -> & _).
  split; [apply join_split|]. split; [apply split_no_separator|].
  apply split_length.
Qed.

Lemma constructor_tokens_witness :
  let self :=
    @Build_LinearSimilarity Dense.Qruntime
      ["x"; "x*y"; "y"]
      {| Dense.shape := [9%nat]; Dense.data := repeat 0%Q 9 |}
      {| Dense.shape := [1%nat]; Dense.data := [0%Q] |}
      default_activation in
  String.concat "," (_combinations self) = "x,x*y,y" /\
  Forall (fun t => contains "," t = false) (_combinations self) /\
  length (_combinations self) = S (count_char "," "x,x*y,y").
Proof.
  intros self.
  apply (constructor_tokens Dense.Qruntime 3 3 "x,x*y,y"
           default_activation self).
  vm_compute. reflexivity.
Defined.

(** X2: for a list of tokens, not empty and none with a comma, that the
    dimension pass accepts, the constructor called on their join with
    commas succeeds as soon as the two tensors are allocated, and the
    object has exactly these tokens, in this order, the allocated weight
    vector of the summed dimension and the allocated bias. *)
Theorem constructor_of_accepted_tokens
  (R : TensorRuntime) (tensor_1_dim tensor_2_dim : Z)
  (tokens : list string) (dims : list Z)
  (activation : tensor -> result tensor) (weight_vector bias : tensor) :
  tokens <> [] ->
  Forall (fun t => contains "," t = false) tokens ->
  Forall2 (fun c d => _get_combination_dim c tensor_1_dim tensor_2_dim = Ok d)
          tokens dims ->
  t_new (sum dims) = Ok weight_vector ->
  t_new 1 = Ok bias ->
  __init__ tensor_1_dim tensor_2_dim (String.concat "," tokens) activation
    = Ok {| _combinations := tokens;
            _weight_vector := weight_vector;
            _bias := bias;
            _activation := activation |}.
Proof.
  intros Hne Hfree Hdims Hw Hb. unfold __init__, _get_combined_dim.
  rewrite (split_join tokens Hne Hfree).
  apply combination_dims_Ok in Hdims. rewrite Hdims. cbn [bind].
  rewrite Hw. cbn [bind]. rewrite Hb. reflexivity.
Qed.

Lemma constructor_of_accepted_tokens_witness :
  __init__ (R := Dense.Qruntime) 2 2
           (String.concat "," ["y"; "x-y"; "x"]) default_activation
    = Ok (@Build_LinearSimilarity Dense.Qruntime
            ["y"; "x-y"; "x"]
            {| Dense.shape := [6%nat]; Dense.data := repeat 0%Q 6 |}
            {| Dense.shape := [1%nat]; Dense.data := [0%Q] |}
            default_activation).
Proof.
  apply (constructor_of_accepted_tokens Dense.Qruntime 2 2
           ["y"; "x-y"; "x"] [2; 2; 2] default_activation
           {| Dense.shape := [6%nat]; Dense.data := repeat 0%Q 6 |}
           {| Dense.shape := [1%nat]; Dense.data := [0%Q] |}).
  - discriminate.
  - repeat constructor.
  - repeat constructor; vm_compute; reflexivity.
  - vm_compute. reflexivity.
  - vm_compute. reflexivity.
Defined.

(** ** Which tokens the two passes accept *)

Lemma single_eqb (a c : ascii) :
  (String a "" =? String c "")%string = Ascii.eqb a c.
Proof.
  simpl. destruct (Ascii.eqb a c); reflexivity.
Qed.

Lemma operand_dimension (a : ascii) (d1 d2 : Z) :
  _get_combination_dim (String a "") d1 d2 =
  if is_operand a then Ok (operand_dim a d1 d2)
  else Raise (ConfigurationError ("Invalid combination: " ++ String a "")).
Proof.
  rewrite _get_combination_dim_short by (simpl; lia).
  rewrite !single_eqb. unfold is_operand, operand_dim.
  destruct (Ascii.eqb a "x"), (Ascii.eqb a "y"); reflexivity.
Qed.

Lemma operand_value (R : TensorRuntime) (a : ascii) (t1 t2 : tensor) :
  _get_combination (String a "") t1 t2 =
  if is_operand a then Ok (if Ascii.eqb a "x" then t1 else t2)
  else Raise (ConfigurationError ("Invalid combination: " ++ String a "")).
Proof.
  rewrite _get_combination_short by (simpl; lia).
  rewrite !single_eqb. unfold is_operand.
  destruct (Ascii.eqb a "x"), (Ascii.eqb a "y"); reflexivity.
Qed.

Lemma length_3_binary (s : string) :
  String.length s = 3%nat -> exists a op b, s = binary a op b.
Proof.
  destruct s as [|a [|op [|b [|? ?]]]]; simpl; try discriminate.
  intros _. exists a, op, b. reflexivity.
Qed.

Lemma dimension_pass_Ok_iff
  (combination : string) (tensor_1_dim tensor_2_dim d : Z) :
  _get_combination_dim combination tensor_1_dim tensor_2_dim = Ok d <->
  (combination = "x" /\ d = tensor_1_dim) \/
  (combination = "y" /\ d = tensor_2_dim) \/
  (exists a op b : ascii,
     combination = binary a op b /\
     is_operand a = true /\ is_operand b = true /\
     operand_dim a tensor_1_dim tensor_2_dim = d /\
     operand_dim b tensor_1_dim tensor_2_dim = d).
Proof.
  split.
  - rewrite _get_combination_dim_body.
    destruct (combination =? "x")%string eqn:Ex.
    { apply String.eqb_eq in Ex. intros [= <-]. auto. }
    destruct (combination =? "y")%string eqn:Ey.
    { apply String.eqb_eq in Ey. intros [= <-]. auto. }
    destruct (String.length combination =? 3)%nat eqn:E3; [|discriminate].
    apply Nat.eqb_eq, length_3_binary in E3 as (a & op & b & ->).
    cbn [negb]. intros H. right. right. exists a, op, b.
    change (char_at (binary a op b) 0) with (String a "") in H.
    change (char_at (binary a op b) 2) with (String b "") in H.
    rewrite !operand_dimension in H.
    destruct (is_operand a); [|discriminate].
    destruct (is_operand b); [|discriminate].
    cbn in H.
    destruct (operand_dim a tensor_1_dim tensor_2_dim
              =? operand_dim b tensor_1_dim tensor_2_dim) eqn:E;
      [|discriminate].
    apply Z.eqb_eq in E. cbn in H. inversion H; subst. auto.
  - intros [[-> ->] | [[-> ->] | (a & op & b & -> & Ha & Hb & Hda & Hdb)]].
    + rewrite _get_combination_dim_short by (simpl; lia). reflexivity.
    + rewrite _get_combination_dim_short by (simpl; lia). reflexivity.
    + rewrite _get_combination_dim_binary, !operand_dimension, Ha, Hb.
      cbn. rewrite Hda, Hdb, Z.eqb_refl. reflexivity.
Qed.

(** X3: the dimension pass returns [d] on exactly these tokens: [x] when
    [d] is the first dimension, [y] when it is the second, and any three
    characters whose first and last are [x] or [y] with dimension [d] each;
    the middle character plays no part. *)
Theorem dimension_pass_accepts
  (combination : string) (tensor_1_dim tensor_2_dim d : Z) :
  _get_combination_dim combination tensor_1_dim tensor_2_dim = Ok d <->
  (combination = "x" /\ d = tensor_1_dim) \/
  (combination = "y" /\ d = tensor_2_dim) \/
  (exists a op b : ascii,
     combination = binary a op b /\
     is_operand a = true /\ is_operand b = true /\
     operand_dim a tensor_1_dim tensor_2_dim = d /\
     operand_dim b tensor_1_dim tensor_2_dim = d).
Proof.
  apply dimension_pass_Ok_iff.
Qed.

Lemma dimension_pass_accepts_witness :
  _get_combination_dim "y#x" 4 4 = Ok 4.
Proof.
  apply (proj2 (dimension_pass_accepts "y#x" 4 4 4)).
  right. right. exists "y"%char, "#"%char, "x"%char.
  repeat split; reflexivity.
Defined.

(** X4: in a token of three characters the operands are looked at before
    the operator and before the dimensions: when the first character is not
    [x] or [y], both passes raise [ConfigurationError] naming that
    character alone; when the first is and the last is not, both name the
    last. *)
Theorem operand_error
  (R : TensorRuntime) (a op b : ascii)
  (tensor_1_dim tensor_2_dim : Z) (tensor_1 tensor_2 : tensor) :
  is_operand a && is_operand b = false ->
  let culprit := if is_operand a then b else a in
  _get_combination_dim (binary a op b) tensor_1_dim tensor_2_dim
    = Raise (ConfigurationError ("Invalid combination: " ++ String culprit ""))
  /\
  _get_combination (binary a op b) tensor_1 tensor_2
    = Raise (ConfigurationError ("Invalid combination: " ++ String culprit "")).
Proof.
  intros H culprit. subst culprit.
  rewrite _get_combination_dim_binary, _get_combination_binary.
  rewrite !operand_dimension, !operand_value.
  destruct (is_operand a); [|split; reflexivity].
  destruct (is_operand b); [discriminate | split; reflexivity].
Qed.

Lemma operand_error_witness :
  (_get_combination_dim "z%y" 3 4
     = Raise (ConfigurationError "Invalid combination: z") /\
   _get_combination (R := Dense.Qruntime) "z%y"
       (Dense.vector [1#1]%Q) (Dense.vector [2#1]%Q)
     = Raise (ConfigurationError "Invalid combination: z")) /\
  (_get_combination_dim "x*w" 3 4
     = Raise (ConfigurationError "Invalid combination: w") /\
   _get_combination (R := Dense.Qruntime) "x*w"
       (Dense.vector [1#1]%Q) (Dense.vector [2#1]%Q)
     = Raise (ConfigurationError "Invalid combination: w")).
Proof.
  split.
  - apply (operand_error Dense.Qruntime "z" "%" "y" 3 4). reflexivity.
  - apply (operand_error Dense.Qruntime "x" "*" "w" 3 4). reflexivity.
Defined.

Lemma valid_expression_length (c : string) :
  valid_expression c = true ->
  String.length c = 1%nat \/ String.length c = 3%nat.
Proof.
  destruct c as [|a [|op [|b [|? ?]]]]; simpl; try discriminate; auto.
Qed.

Lemma _get_combination_undocumented
  (R : TensorRuntime) (combination : string) (tensor_1 tensor_2 : tensor) :
  valid_expression combination = false ->
  raises_ConfigurationError (_get_combination combination tensor_1 tensor_2).
Proof.
  intros H.
  destruct (Nat.eq_dec (String.length combination) 3) as [E3|E3].
  - apply length_3_binary in E3 as (a & op & b & ->).
    cbn [binary valid_expression] in H.
    destruct (is_operand a && is_operand b)%bool eqn:Hab.
    + apply andb_true_iff in Hab as [Ha Hb]. rewrite Ha, Hb in H.
      cbn in H. rewrite andb_true_r in H.
      unfold is_operator in H.
      repeat (apply orb_false_iff in H as [H ?]).
      apply _get_combination_unknown_operator;
        intros ->; discriminate.
    + rewrite _get_combination_binary, !operand_value.
      apply raises_ConfigurationError_iff.
      destruct (is_operand a); [|reflexivity].
      destruct (is_operand b); [discriminate | reflexivity].
  - rewrite _get_combination_short by assumption.
    apply raises_ConfigurationError_iff.
    destruct combination as [|a [|? ?]];
      try (destruct (_ =? "x")%string eqn:Ex;
           [apply String.eqb_eq in Ex; discriminate Ex|];
           destruct (_ =? "y")%string eqn:Ey;
           [apply String.eqb_eq in Ey; discriminate Ey|]; reflexivity).
    cbn [valid_expression] in H. rewrite !single_eqb.
    unfold is_operand in H. apply orb_false_iff in H as [-> ->]. reflexivity.
Qed.

(** X5: the value pass raises [ConfigurationError] on every token that is
    not of a documented form ([x], [y], or operand, operator, operand),
    whatever the tensor library and the inputs are. *)
Theorem undocumented_token_raises
  (R : TensorRuntime) (combination : string) (tensor_1 tensor_2 : tensor) :
  valid_expression combination = false ->
  raises_ConfigurationError (_get_combination combination tensor_1 tensor_2).
Proof.
  apply _get_combination_undocumented.
Qed.

Lemma undocumented_token_raises_witness :
  raises_ConfigurationError
    (_get_combination (R := Dense.Qruntime) "(x*y)+x"
       (Dense.vector [1#1]%Q) (Dense.vector [2#1]%Q)) /\
  raises_ConfigurationError
    (_get_combination (R := Dense.Qruntime) "x^y"
       (Dense.vector [1#1]%Q) (Dense.vector [2#1]%Q)).
Proof.
  split.
  - apply (undocumented_token_raises Dense.Qruntime "(x*y)+x"). reflexivity.
  - apply (undocumented_token_raises Dense.Qruntime "x^y"). reflexivity.
Defined.

(** X6: the tokens that the dimension pass accepts although no value pass
    can evaluate them are exactly the operand, character, operand tokens
    whose operands have one dimension and whose middle character is none of
    [*], [/], [+], [-]. *)
Theorem accepted_but_not_evaluable
  (combination : string) (tensor_1_dim tensor_2_dim : Z) :
  ((exists d, _get_combination_dim combination tensor_1_dim tensor_2_dim = Ok d)
   /\ valid_expression combination = false) <->
  (exists a op b : ascii,
     combination = binary a op b /\
     is_operand a = true /\ is_operand b = true /\ is_operator op = false /\
     operand_dim a tensor_1_dim tensor_2_dim
       = operand_dim b tensor_1_dim tensor_2_dim).
Proof.
  split.
  - intros [[d Hd] Hv]. apply dimension_pass_Ok_iff in Hd
      as [[-> _] | [[-> _] | (a & op & b & -> & Ha & Hb & Hda & Hdb)]];
      try discriminate Hv.
    exists a, op, b. cbn [binary valid_expression] in Hv.
    rewrite Ha, Hb, andb_true_r in Hv. cbn in Hv.
    repeat split; try assumption. congruence.
  - intros (a & op & b & -> & Ha & Hb & Hop & Hd). split.
    + exists (operand_dim a tensor_1_dim tensor_2_dim).
      apply dimension_pass_Ok_iff. right. right. exists a, op, b. auto.
    + cbn [binary valid_expression]. rewrite Ha, Hb, Hop. reflexivity.
Qed.

Lemma accepted_but_not_evaluable_witness :
  (exists d, _get_combination_dim "x%y" 3 3 = Ok d) /\
  valid_expression "x%y" = false.
Proof.
  apply (proj2 (accepted_but_not_evaluable "x%y" 3 3)).
  exists "x"%char, "%"%char, "y"%char. repeat split; reflexivity.
Defined.

(** ** The constructor, token by token *)

Lemma combination_dims_first_failure
  (accepted : list string) (c : string) (rest : list string)
  (d1 d2 : Z) (e : exn) :
  Forall (fun t => exists d, _get_combination_dim t d1 d2 = Ok d) accepted ->
  _get_combination_dim c d1 d2 = Raise e ->
  combination_dims (accepted ++ c :: rest) d1 d2 = Raise e.
Proof.
  intros Hacc Hc. induction Hacc as [|t accepted [d Hd] _ IH]; simpl.
  - rewrite Hc. reflexivity.
  - rewrite Hd, IH. reflexivity.
Qed.

(** X7: the constructor fails with the error of the first token, from the
    left, that the dimension pass rejects, whatever comes after it; the
    tokens are comma free and joined by commas. *)
Theorem constructor_reports_first_rejected_token
  (R : TensorRuntime) (tensor_1_dim tensor_2_dim : Z)
  (accepted : list string) (c : string) (rest : list string)
  (activation : tensor -> result tensor) (e : exn) :
  Forall (fun t => contains "," t = false) (accepted ++ c :: rest) ->
  Forall (fun t => exists d,
            _get_combination_dim t tensor_1_dim tensor_2_dim = Ok d)
         accepted ->
  _get_combination_dim c tensor_1_dim tensor_2_dim = Raise e ->
  __init__ tensor_1_dim tensor_2_dim
           (String.concat "," (accepted ++ c :: rest)) activation
    = Raise e.
Proof.
  intros Hfree Hacc Hc. unfold __init__, _get_combined_dim.
  rewrite split_join; [|destruct accepted; discriminate | exact Hfree].
  rewrite (combination_dims_first_failure _ _ _ _ _ _ Hacc Hc). reflexivity.
Qed.

Lemma constructor_reports_first_rejected_token_witness :
  __init__ (R := Dense.Qruntime) 3 3
           (String.concat "," (["x"; "x*y"] ++ "q" :: ["zz"; "y"]))
           default_activation
    = Raise (ConfigurationError "Invalid combination: q").
Proof.
  apply (constructor_reports_first_rejected_token Dense.Qruntime 3 3
           ["x"; "x*y"] "q" ["zz"; "y"] default_activation).
  - repeat constructor.
  - repeat constructor; eexists; vm_compute; reflexivity.
  - vm_compute. reflexivity.
Defined.

Lemma accepted_dimension
  (c : string) (d1 d2 d : Z) :
  _get_combination_dim c d1 d2 = Ok d -> d = d1 \/ d = d2.
Proof.
  intros H. apply dimension_pass_Ok_iff in H
    as [[_ ->] | [[_ ->] | (a & op & b & _ & _ & _ & <- & _)]]; auto.
  unfold operand_dim. destruct (Ascii.eqb a "x"); auto.
Qed.

Lemma sum_bounds (lo hi : Z) (ds : list Z) :
  Forall (fun d => lo <= d <= hi) ds ->
  Z.of_nat (length ds) * lo <= sum ds <= Z.of_nat (length ds) * hi.
Proof.
  induction 1 as [|d ds Hd _ IH].
  - unfold sum; simpl. lia.
  - rewrite sum_cons. cbn [length]. lia.
Qed.

Lemma combination_dims_bounds (cs : list string) (d1 d2 : Z) (ds : list Z) :
  combination_dims cs d1 d2 = Ok ds ->
  length ds = length cs /\
  Forall (fun d => Z.min d1 d2 <= d <= Z.max d1 d2) ds.
Proof.
  intros H. apply combination_dims_Ok in H.
  induction H as [|c d cs ds Hd _ [IHl IHf]]; [split; constructor|].
  split; [simpl; congruence|]. constructor; [|exact IHf].
  apply accepted_dimension in Hd. lia.
Qed.

(** X8: a constructed object has at least one token, and its weight vector
    has between [k] times the smaller and [k] times the larger of the two
    input dimensions entries, [k] being the number of tokens; with positive
    input dimensions the weight vector is never empty. *)
Theorem weight_vector_bounds
  (R : TensorRuntime) (L : TensorLaws R)
  (tensor_1_dim tensor_2_dim : Z) (combination : string)
  (activation : tensor -> result tensor) (self : LinearSimilarity) :
  __init__ tensor_1_dim tensor_2_dim combination activation = Ok self ->
  let k := Z.of_nat (length (_combinations self)) in
  1 <= k /\
  k * Z.min tensor_1_dim tensor_2_dim
    <= last_dim (_weight_vector self)
    <= k * Z.max tensor_1_dim tensor_2_dim /\
  (0 < tensor_1_dim -> 0 < tensor_2_dim ->
   0 < last_dim (_weight_vector self)).
Proof.
  intros H k. subst k.
  apply __init___Ok in H as (dims & Hdims & Hc & Hw & _).
  apply new_last_dim in Hw. rewrite Hw, Hc.
  apply combination_dims_bounds in Hdims as [Hlen Hall].
  apply sum_bounds in Hall. rewrite Hlen in Hall.
  pose proof (split_not_nil "," combination) as Hne.
  assert (Hk : 1 <= Z.of_nat (length (split "," combination))).
  { destruct (split "," combination); [contradiction | simpl; lia]. }
  split; [exact Hk|]. split; [exact Hall|]. intros H1 H2. nia.
Qed.

Lemma weight_vector_bounds_witness :
  let self :=
    @Build_LinearSimilarity Dense.Qruntime
      ["x"; "y"; "y"]
      {| Dense.shape := [8%nat]; Dense.data := repeat 0%Q 8 |}
      {| Dense.shape := [1%nat]; Dense.data := [0%Q] |}
      default_activation in
  let k := Z.of_nat (length (_combinations self)) in
  1 <= k /\
  k * Z.min 2 3 <= last_dim (_weight_vector self) <= k * Z.max 2 3 /\
  (0 < 2 -> 0 < 3 -> 0 < last_dim (_weight_vector self)).
Proof.
  intros self.
  apply (weight_vector_bounds Dense.Qruntime
           (Dense_laws Q Qmult Qdiv Qplus Qminus 0%Q)
           2 3 "x,y,y" default_activation self).
  vm_compute. reflexivity.
Defined.

Lemma combined_last_dim_weight
  (R : TensorRuntime) (L : TensorLaws R)
  (combination : string) (activation : tensor -> result tensor)
  (self : LinearSimilarity) (tensor_1 tensor_2 combined_tensor : tensor) :
  __init__ (last_dim tensor_1) (last_dim tensor_2) combination activation
    = Ok self ->
  _combine_tensors (_combinations self) tensor_1 tensor_2
    = Ok combined_tensor ->
  last_dim combined_tensor = last_dim (_weight_vector self).
Proof.
  intros H Hv.
  apply __init___Ok in H as (dims & Hdims & Hc & Hw & _).
  apply new_last_dim in Hw. rewrite Hw. rewrite Hc in Hv.
  assert (Hd : _get_combined_dim (split "," combination)
                 (last_dim tensor_1) (last_dim tensor_2) = Ok (sum dims)).
  { unfold _get_combined_dim. rewrite Hdims. reflexivity. }
  exact (proj1 (last_dim_agreement R L _ _ _ _ _ _ _
                   eq_refl eq_refl Hd Hv)).
Qed.

(** X9: for an object built for the dimensions of the last axes of two
    tensors, whatever the value pass returns on these tensors has a last
    axis as long as the weight vector, which is what the product with the
    weight vector in [forward] needs. *)
Theorem combined_tensor_fits_weight_vector
  (R : TensorRuntime) (L : TensorLaws R)
  (combination : string) (activation : tensor -> result tensor)
  (self : LinearSimilarity) (tensor_1 tensor_2 combined_tensor : tensor) :
  __init__ (last_dim tensor_1) (last_dim tensor_2) combination activation
    = Ok self ->
  _combine_tensors (_combinations self) tensor_1 tensor_2
    = Ok combined_tensor ->
  last_dim combined_tensor = last_dim (_weight_vector self).
Proof.
  apply combined_last_dim_weight. exact L.
Qed.

Lemma combined_tensor_fits_weight_vector_witness :
  let self :=
    @Build_LinearSimilarity Dense.Qruntime
      ["x"; "x*y"; "y"]
      {| Dense.shape := [6%nat]; Dense.data := repeat 0%Q 6 |}
      {| Dense.shape := [1%nat]; Dense.data := [0%Q] |}
      default_activation in
  last_dim (TensorRuntime := Dense.Qruntime)
    (Dense.vector [1#1; 2#1; 3#1; 8#1; 3#1; 4#1]%Q)
  = last_dim (_weight_vector self).
Proof.
  intros self.
  apply (combined_tensor_fits_weight_vector Dense.Qruntime
           (Dense_laws Q Qmult Qdiv Qplus Qminus 0%Q)
           "x,x*y,y" default_activation self
           (Dense.vector [1#1; 2#1]%Q) (Dense.vector [3#1; 4#1]%Q)
           (Dense.vector [1#1; 2#1; 3#1; 8#1; 3#1; 4#1]%Q));
    vm_compute; reflexivity.
Defined.

Lemma sum_Permutation (l l' : list Z) : Permutation l l' -> sum l = sum l'.
Proof.
  induction 1 as [|d l l' _ IH|d d' l|l l' l'' _ IH1 _ IH2].
  - reflexivity.
  - rewrite !sum_cons, IH. reflexivity.
  - rewrite !sum_cons. lia.
  - congruence.
Qed.

(** X10: the order of the tokens does not matter to the dimension pass: on
    a reordered list it succeeds when it did before, with the same combined
    dimension. *)
Theorem combined_dim_permutation
  (combinations reordered : list string) (tensor_1_dim tensor_2_dim n : Z) :
  Permutation combinations reordered ->
  _get_combined_dim combinations tensor_1_dim tensor_2_dim = Ok n ->
  _get_combined_dim reordered tensor_1_dim tensor_2_dim = Ok n.
Proof.
  intros Hp H. unfold _get_combined_dim in *.
  apply bind_Ok_inv in H as (ds & Hds & H). inversion H; subst n.
  apply combination_dims_Ok in Hds.
  destruct (Permutation_Forall2 Hp Hds) as (ds' & Hp' & Hds').
  apply combination_dims_Ok in Hds'. rewrite Hds'; simpl.
  rewrite (sum_Permutation _ _ Hp'). reflexivity.
Qed.

Lemma combined_dim_permutation_witness :
  _get_combined_dim ["y"; "x"; "x*x"] 2 5 = Ok 9.
Proof.
  apply (combined_dim_permutation ["x"; "x*x"; "y"] ["y"; "x"; "x*x"] 2 5 9).
  - apply Permutation_sym, (Permutation_cons_app ["x"; "x*x"] []).
    rewrite app_nil_r. apply Permutation_refl.
  - vm_compute. reflexivity.
Defined.

(** ** Where each expression lies in the combined vector *)

Section DenseLayout.

Variable A : Type.
Variables e_mul e_div e_add e_sub : A -> A -> A.
Variable e_zero : A.

Let Rd : TensorRuntime := Dense.runtime A e_mul e_div e_add e_sub e_zero.

Variables xs ys : list A.

Lemma dense_combine_loop_layout (rest : list string) (blocks : list (list A)) :
  Forall2 (fun c l =>
             _get_combination (R := Rd) c (Dense.vector xs) (Dense.vector ys)
             = Ok (Dense.vector l)) rest blocks ->
  forall acc : list A,
    combine_loop (R := Rd) rest (Dense.vector xs) (Dense.vector ys)
                 (Dense.vector acc)
    = Ok (Dense.vector (acc ++ concat blocks)).
Proof.
  induction 1 as [|c l rest blocks Hc _ IH]; intros acc.
  - simpl. rewrite app_nil_r. reflexivity.
  - cbn [combine_loop]. rewrite Hc. cbn [bind].
    change (@t_cat Rd (Dense.vector acc) (Dense.vector l)) with
      (Dense.cat A (Dense.vector acc) (Dense.vector l)).
    rewrite cat_vector. cbn [bind]. rewrite IH.
    cbn [concat]. rewrite app_assoc. reflexivity.
Qed.

Lemma block_of_concat (blocks : list (list A)) (k : nat) (l : list A) :
  nth_error blocks k = Some l ->
  firstn (length l)
         (skipn (length (concat (firstn k blocks))) (concat blocks)) = l.
Proof.
  intros H. apply nth_error_split in H as (before & after & -> & <-).
  rewrite firstn_app, firstn_all, Nat.sub_diag. cbn [firstn].
  rewrite app_nil_r, concat_app. cbn [concat].
  rewrite skipn_app, skipn_all, Nat.sub_diag. cbn [skipn app].
  rewrite firstn_app, firstn_all, Nat.sub_diag. cbn [firstn].
  apply app_nil_r.
Qed.

End DenseLayout.

(** X11: on dense vectors the combined vector is the values of the
    expressions one after the other: the value of expression [k] starts
    where the values of the expressions before it end, so these are the
    entries that meet the corresponding entries of the weight vector. *)
Theorem dense_vector_layout
  (A : Type) (e_mul e_div e_add e_sub : A -> A -> A) (e_zero : A)
  (combinations : list string) (xs ys : list A) (blocks : list (list A)) :
  let R := Dense.runtime A e_mul e_div e_add e_sub e_zero in
  combinations <> [] ->
  Forall2 (fun c l =>
             _get_combination (R := R) c (Dense.vector xs) (Dense.vector ys)
             = Ok (Dense.vector l)) combinations blocks ->
  _combine_tensors (R := R) combinations (Dense.vector xs) (Dense.vector ys)
    = Ok (Dense.vector (concat blocks)) /\
  forall (k : nat) (l : list A),
    nth_error blocks k = Some l ->
    firstn (length l)
           (skipn (length (concat (firstn k blocks))) (concat blocks)) = l.
Proof.
  intros R Hne H. split; [|intros k l; apply block_of_concat].
  inversion H as [|c l rest blocks' Hc Hrest]; subst; [contradiction|].
  unfold _combine_tensors. rewrite Hc. cbn [bind].
  apply (dense_combine_loop_layout A e_mul e_div e_add e_sub e_zero
           xs ys rest blocks' Hrest l).
Qed.

Lemma dense_vector_layout_witness :
  _combine_tensors (R := Dense.Qruntime) ["y"; "x+y"; "x"]
      (Dense.vector [1#1; 2#1]%Q) (Dense.vector [3#1; 4#1]%Q)
    = Ok (Dense.vector
            (concat [[3#1; 4#1]; [4#1; 6#1]; [1#1; 2#1]]%Q)) /\
  forall (k : nat) (l : list Q),
    nth_error [[3#1; 4#1]; [4#1; 6#1]; [1#1; 2#1]]%Q k = Some l ->
    firstn (length l)
      (skipn (length (concat
                        (firstn k [[3#1; 4#1]; [4#1; 6#1]; [1#1; 2#1]]%Q)))
             (concat [[3#1; 4#1]; [4#1; 6#1]; [1#1; 2#1]]%Q)) = l.
Proof.
  apply (dense_vector_layout Q Qmult Qdiv Qplus Qminus 0%Q
           ["y"; "x+y"; "x"] [1#1; 2#1]%Q [3#1; 4#1]%Q
           [[3#1; 4#1]; [4#1; 6#1]; [1#1; 2#1]]%Q).
  - discriminate.
  - repeat constructor.
Defined.

(** ** Construction from a configuration *)

Section From_params_properties.

Context {R : TensorRuntime} {P : ParamsRuntime}.

Lemma from_params_Ok (params params' : Params) (self : LinearSimilarity) :
  from_params params = (Ok self, params') ->
  exists (d1 d2 : Z) (combination : string) (params1 params2 : Params),
    pop_int "tensor_1_dim" params = (Ok d1, params1) /\
    pop_int "tensor_2_dim" params1 = (Ok d2, params2) /\
    pop_str "combination" "x,y" params2 = (Ok combination, params') /\
    assert_empty "LinearSimilarity" params' = Ok tt /\
    __init__ d1 d2 combination (fun x => Ok x) = Ok self.
Proof.
  unfold from_params, config_bind, config_lift.
  destruct (pop_int "tensor_1_dim" params) as [[d1|e1] p1] eqn:H1;
    [|discriminate].
  destruct (pop_int "tensor_2_dim" p1) as [[d2|e2] p2] eqn:H2;
    [|discriminate].
  destruct (pop_str "combination" "x,y" p2) as [[c|e3] p3] eqn:H3;
    [|discriminate].
  destruct (assert_empty "LinearSimilarity" p3) as [[]|e4] eqn:He;
    [|discriminate].
  intros H. inversion H as [[Hself Hparams]]. subst p3.
  exists d1, d2, c, p1, p2. auto.
Qed.

End From_params_properties.

(** X12: when [from_params] returns an object, the configuration it leaves
    behind passes [assert_empty], the activation of the object is the
    identity whatever the configuration held, its tokens are the pieces of
    the configured combination, and its weight vector has the sum of their
    dimensions, for the two configured dimensions, as its length. *)
Theorem from_params_object
  (R : TensorRuntime) (L : TensorLaws R) (P : ParamsRuntime)
  (params params' : Params) (self : LinearSimilarity) :
  from_params params = (Ok self, params') ->
  assert_empty "LinearSimilarity" params' = Ok tt /\
  (forall x : tensor, _activation self x = Ok x) /\
  exists (d1 d2 : Z) (combination : string) (dims : list Z)
         (params1 params2 : Params),
    pop_int "tensor_1_dim" params = (Ok d1, params1) /\
    pop_int "tensor_2_dim" params1 = (Ok d2, params2) /\
    pop_str "combination" "x,y" params2 = (Ok combination, params') /\
    _combinations self = split "," combination /\
    Forall2 (fun c d => _get_combination_dim c d1 d2 = Ok d)
            (_combinations self) dims /\
    last_dim (_weight_vector self) = sum dims.
Proof.
  intros H.
  apply from_params_Ok in H as (d1 & d2 & c & p1 & p2 & H1 & H2 & H3 & He & H).
  apply __init___Ok in H as (dims & Hdims & Hc & Hw & _ & Ha).
  split; [exact He|]. split; [intros x; rewrite Ha; reflexivity|].
  exists d1, d2, c, dims, p1, p2. repeat split; try assumption.
  - rewrite Hc. apply combination_dims_Ok. exact Hdims.
  - apply new_last_dim. exact Hw.
Qed.

Lemma from_params_object_witness :
  let params :=
    {| Config.ints := [("tensor_2_dim", 3); ("tensor_1_dim", 2)];
       Config.strs := [] |} in
  let params' := {| Config.ints := []; Config.strs := [] |} in
  let self :=
    @Build_LinearSimilarity Dense.Qruntime
      ["x"; "y"]
      {| Dense.shape := [5%nat]; Dense.data := repeat 0%Q 5 |}
      {| Dense.shape := [1%nat]; Dense.data := [0%Q] |}
      (fun x => Ok x) in
  Config.assert_empty "LinearSimilarity" params' = Ok tt /\
  (forall x : @tensor Dense.Qruntime, _activation self x = Ok x) /\
  exists (d1 d2 : Z) (combination : string) (dims : list Z)
         (params1 params2 : Config.t),
    Config.pop_int "tensor_1_dim" params = (Ok d1, params1) /\
    Config.pop_int "tensor_2_dim" params1 = (Ok d2, params2) /\
    Config.pop_str "combination" "x,y" params2 = (Ok combination, params') /\
    _combinations self = split "," combination /\
    Forall2 (fun c d => _get_combination_dim c d1 d2 = Ok d)
            (_combinations self) dims /\
    last_dim (_weight_vector self) = sum dims.
Proof.
  intros params params' self.
  apply (from_params_object Dense.Qruntime
           (Dense_laws Q Qmult Qdiv Qplus Qminus 0%Q) Config.runtime
           params params' self).
  vm_compute. reflexivity.
Defined.

(** ** The forward pass *)

Section ForwardErrors.

Context {R : TensorRuntime} {P : ProjectionRuntime R}.

Lemma _combine_tensors_evaluates_all
  (combinations : list string) (tensor_1 tensor_2 combined : tensor)
  (c : string) :
  _combine_tensors combinations tensor_1 tensor_2 = Ok combined ->
  In c combinations ->
  exists value, _get_combination c tensor_1 tensor_2 = Ok value.
Proof.
  intros H Hin. apply _combine_tensors_Ok in H as (first & rest & H & _).
  remember (first :: rest) as values eqn:E. clear E.
  induction H as [|c' v cs vs Hv _ IH]; simpl in Hin; [contradiction|].
  destruct Hin as [-> | Hin]; [eauto | auto].
Qed.

End ForwardErrors.

(** X13: an object with a token that is not of a documented form never
    gets through a forward call: for all inputs the value pass raises, and
    [forward] raises the same exception before it multiplies anything with
    the weight vector.  The constructor does build such objects (see the
    tokens that only the dimension pass accepts). *)
Theorem forward_needs_documented_tokens
  (R : TensorRuntime) (P : ProjectionRuntime R)
  (self : LinearSimilarity) (tensor_1 tensor_2 : tensor) (c : string) :
  In c (_combinations self) ->
  valid_expression c = false ->
  exists e : exn,
    _combine_tensors (_combinations self) tensor_1 tensor_2 = Raise e /\
    Forward_pass.forward self tensor_1 tensor_2 = Raise e.
Proof.
  intros Hin Hc. unfold Forward_pass.forward.
  destruct (_combine_tensors (_combinations self) tensor_1 tensor_2)
    as [combined|e] eqn:H.
  - exfalso.
    destruct (_combine_tensors_evaluates_all _ _ _ _ _ H Hin) as [v Hv].
    destruct (_get_combination_undocumented R c tensor_1 tensor_2 Hc)
      as [msg Hmsg].
    congruence.
  - exists e. split; reflexivity.
Qed.

Lemma forward_needs_documented_tokens_witness :
  exists e : exn,
    _combine_tensors (R := Dense.Qruntime) ["x"; "x%y"]
        (Dense.vector [1#1; 2#1]%Q) (Dense.vector [3#1; 4#1]%Q) = Raise e /\
    Forward_pass.forward (P := DenseProjection.Qruntime)
        (@Build_LinearSimilarity Dense.Qruntime ["x"; "x%y"]
           {| Dense.shape := [4%nat]; Dense.data := repeat 0%Q 4 |}
           {| Dense.shape := [1%nat]; Dense.data := [0%Q] |}
           default_activation)
        (Dense.vector [1#1; 2#1]%Q) (Dense.vector [3#1; 4#1]%Q) = Raise e.
Proof.
  apply (forward_needs_documented_tokens Dense.Qruntime
           DenseProjection.Qruntime
           (@Build_LinearSimilarity Dense.Qruntime ["x"; "x%y"]
              {| Dense.shape := [4%nat]; Dense.data := repeat 0%Q 4 |}
              {| Dense.shape := [1%nat]; Dense.data := [0%Q] |}
              default_activation)
           (Dense.vector [1#1; 2#1]%Q) (Dense.vector [3#1; 4#1]%Q) "x%y").
  - simpl. right. left. reflexivity.
  - reflexivity.
Defined.

(** ** The shapes of the product with the weight vector *)

Lemma prod_app (l l' : list Z) : prod (l ++ l') = prod l * prod l'.
Proof.
  unfold prod. induction l as [|a l IH]; cbn [fold_right app];
    [ring | rewrite IH; ring].
Qed.

Lemma prod_pos (l : list Z) : Forall (fun s => 0 < s) l -> 0 < prod l.
Proof.
  unfold prod. induction 1 as [|a l Ha _ IH]; cbn [fold_right]; nia.
Qed.

Lemma count_occ_pos (l : list Z) :
  Forall (fun s => 0 < s) l -> count_occ Z.eq_dec l (-1) = 0%nat.
Proof.
  induction 1 as [|a l Ha _ IH]; simpl; [reflexivity|].
  destruct (Z.eq_dec a (-1)); [lia | exact IH].
Qed.

Lemma forallb_nonneg_pos (l : list Z) :
  Forall (fun s => 0 < s) l -> forallb (fun a => 0 <=? a) l = true.
Proof.
  induction 1 as [|a l Ha _ IH]; simpl; [reflexivity|].
  rewrite IH. replace (0 <=? a) with true by (symmetry; apply Z.leb_le; lia).
  reflexivity.
Qed.

(** A view with the very sizes asked for, when they have as many
    elements. *)
Lemma view_shape_exact (size args : list Z) :
  Forall (fun s => 0 < s) args ->
  prod args = prod size ->
  view_shape size args = Some args.
Proof.
  intros Hpos Hprod. unfold view_shape.
  rewrite (count_occ_pos _ Hpos), (forallb_nonneg_pos _ Hpos), Hprod.
  rewrite Z.eqb_refl. reflexivity.
Qed.

(** The view [(-1, r, d)] of a tensor whose last two axes are [r] and [d]
    puts the axes before them into one. *)
Lemma view_shape_batch (lead : list Z) (r d : Z) :
  Forall (fun s => 0 < s) (lead ++ [r; d]) ->
  view_shape (lead ++ [r; d]) [-1; r; d] = Some [prod lead; r; d].
Proof.
  intros H. apply Forall_app in H as [Hlead Hrd].
  inversion Hrd as [|? ? Hr Hd']; subst. inversion Hd' as [|? ? Hd _]; subst.
  pose proof (prod_pos _ Hlead) as Hp.
  unfold view_shape. cbn [count_occ].
  destruct (Z.eq_dec (-1) (-1)) as [_|n]; [|contradiction].
  destruct (Z.eq_dec r (-1)); [lia|]. destruct (Z.eq_dec d (-1)); [lia|].
  cbn [filter forallb map].
  change (-1 =? -1) with true. change (-1 <=? -1) with true.
  replace (r =? -1) with false by (symmetry; apply Z.eqb_neq; lia).
  replace (d =? -1) with false by (symmetry; apply Z.eqb_neq; lia).
  cbn [negb andb]. rewrite prod_app.
  change (prod [r; d]) with (r * (d * 1)).
  replace (-1 <=? r) with true by (symmetry; apply Z.leb_le; lia).
  replace (-1 <=? d) with true by (symmetry; apply Z.leb_le; lia).
  replace (0 <? r * (d * 1)) with true by (symmetry; apply Z.ltb_lt; nia).
  rewrite Z.mod_mul by nia. rewrite Z.div_mul by nia.
  reflexivity.
Qed.

Lemma two_last (l : list Z) :
  (2 <= length l)%nat -> exists lead r d, l = (lead ++ [r; d])%list.
Proof.
  intros H. destruct (exists_last (l := l)) as (l1 & d & ->).
  { intros ->. simpl in H. lia. }
  rewrite length_app in H. simpl in H.
  destruct (exists_last (l := l1)) as (lead & r & ->).
  { intros ->. simpl in H. lia. }
  exists lead, r, d. rewrite <- app_assoc. reflexivity.
Qed.

Lemma last_two_app (lead : list Z) (r d : Z) :
  last_two (lead ++ [r; d]) = [r; d].
Proof.
  unfold last_two. rewrite length_app. cbn [length].
  replace (length lead + 2 - 2)%nat with (length lead) by lia.
  rewrite skipn_app, skipn_all, Nat.sub_diag. reflexivity.
Qed.

Lemma all_but_last_app (lead : list Z) (r d : Z) :
  all_but_last (lead ++ [r; d]) = (lead ++ [r])%list.
Proof.
  unfold all_but_last.
  change [r; d] with ([r] ++ [d])%list. rewrite app_assoc.
  apply removelast_last.
Qed.

Lemma last_app_two (lead : list Z) (r d : Z) : last (lead ++ [r; d]) 0 = d.
Proof.
  change [r; d] with ([r] ++ [d])%list. rewrite app_assoc. apply last_last.
Qed.

Section DotProduct.

Context {R : TensorRuntime} {L : TensorLaws R}.
Context {P : ProjectionRuntime R} {Y : LayoutRuntime R}.
Context {PL : ProjectionLaws R P Y}.

(** With a weight vector as long as the last axis of the combined tensor,
    the product succeeds and drops that axis. *)
Lemma dot_product_of_sizes
  (self : LinearSimilarity) (combined : tensor) :
  t_size (_weight_vector self) = [last_dim combined] ->
  2 <= t_dim combined ->
  (2 < t_dim combined -> t_is_contiguous combined = true) ->
  Forall (fun s => 0 < s) (t_size combined) ->
  exists dot_product,
    Forward_pass.dot_product_of self combined = Ok dot_product /\
    t_size dot_product = all_but_last (t_size combined).
Proof.
  intros Hw Hdim Hcontiguous Hpos. unfold Forward_pass.dot_product_of.
  rewrite size_dim in *.
  destruct (two_last (t_size combined)) as (lead & r & d & Hs); [lia|].
  pose proof (size_last_dim combined) as Hlast.
  rewrite Hs, last_app_two in Hlast. subst d.
  rewrite Hs in *. rewrite all_but_last_app, last_two_app.
  rewrite length_app. cbn [length].
  destruct lead as [|l0 lead].
  - cbn [length app]. cbn.
    destruct (matmul_sizes combined (_weight_vector self) r
                (last_dim combined) Hs Hw) as (c & Hc & Hcs).
    exists c. split; assumption.
  - replace (Z.of_nat (length (l0 :: lead) + 2) <=? 2) with false
      by (symmetry; apply Z.leb_gt; cbn [length]; lia).
    cbn [app].
    destruct (view_sizes combined _ _
                (Hcontiguous ltac:(rewrite length_app; cbn [length]; lia))
                (eq_trans (f_equal (fun s => view_shape s _) Hs)
                          (view_shape_batch (l0 :: lead) r _ Hpos)))
      as (reshaped & Hview & Hreshaped).
    rewrite Hview. cbn [bind].
    destruct (unsqueeze_sizes (_weight_vector self) 1) as (u1 & Hu1 & Hu1s).
    { rewrite Hw. simpl. lia. }
    rewrite Hu1. cbn [bind]. rewrite Hw in Hu1s. cbn in Hu1s.
    destruct (unsqueeze_sizes u1 0) as (u0 & Hu0 & Hu0s).
    { rewrite Hu1s. simpl. lia. }
    rewrite Hu0. cbn [bind]. rewrite Hu1s in Hu0s. cbn in Hu0s.
    rewrite Hreshaped, Hw. cbn [getitem_0 bind].
    apply Forall_app in Hpos as [Hlead Hrd].
    pose proof (prod_pos _ Hlead) as Hp.
    inversion Hrd as [|? ? Hr Hd']; subst.
    inversion Hd' as [|? ? Hd _]; subst.
    destruct (expand_sizes u0 [prod (l0 :: lead); last_dim combined; 1])
      as (w & Hexp & Hws).
    { rewrite Hu0s. repeat constructor; auto; lia. }
    rewrite Hexp. cbn [bind].
    destruct (bmm_sizes reshaped w _ _ _ _ Hreshaped Hws)
      as (rdp & Hbmm & Hrdp).
    rewrite Hbmm. cbn [bind].
    apply view_sizes; [exact (bmm_contiguous _ _ _ Hbmm)|]. rewrite Hrdp.
    change (l0 :: lead ++ [r])%list with ((l0 :: lead) ++ [r])%list.
    apply view_shape_exact.
    + apply Forall_app. split; [exact Hlead | repeat constructor; exact Hr].
    + rewrite prod_app. generalize (prod (l0 :: lead)). intros q.
      unfold prod. cbn [fold_right]. ring.
Qed.

End DotProduct.

Lemma map_of_nat_to_nat (l : list Z) :
  Forall (fun s => 0 <= s) l -> map Z.of_nat (map Z.to_nat l) = l.
Proof.
  induction 1 as [|a l Ha _ IH]; simpl; [reflexivity|].
  rewrite IH, Z2Nat.id by exact Ha. reflexivity.
Qed.

Lemma of_nat_nonneg (l : list nat) :
  Forall (fun s => 0 <= s) (map Z.of_nat l).
Proof.
  induction l as [|a l IH]; simpl; constructor; [lia | exact IH].
Qed.

Lemma prod_nonneg (l : list Z) : Forall (fun s => 0 <= s) l -> 0 <= prod l.
Proof.
  unfold prod. induction 1 as [|a l Ha _ IH]; cbn [fold_right]; nia.
Qed.

(** The sizes of a view are sizes. *)
Lemma view_shape_nonneg (size args s : list Z) :
  Forall (fun a => 0 <= a) size ->
  view_shape size args = Some s ->
  Forall (fun a => 0 <= a) s.
Proof.
  intros Hsize. unfold view_shape.
  destruct (count_occ Z.eq_dec args (-1)) as [|[|k]]; [| |discriminate].
  - destruct (forallb (fun a => 0 <=? a) args) eqn:Hall; [|discriminate].
    destruct (prod args =? prod size); [|discriminate].
    intros [= <-]. apply Forall_forall. intros a Ha.
    rewrite forallb_forall in Hall. apply Z.leb_le. auto.
  - destruct (forallb (fun a => -1 <=? a) args) eqn:Hall; [|discriminate].
    destruct (0 <? _) eqn:Hk; [|discriminate].
    destruct (_ =? 0); [|discriminate].
    intros [= <-]. apply Forall_forall. intros a Ha.
    apply in_map_iff in Ha as (b & <- & Hb).
    rewrite forallb_forall in Hall. specialize (Hall b Hb).
    apply Z.leb_le in Hall. apply Z.ltb_lt in Hk.
    destruct (b =? -1) eqn:E.
    + apply Z.div_pos; [apply prod_nonneg; exact Hsize | exact Hk].
    + apply Z.eqb_neq in E. lia.
Qed.

Lemma last_of_nat (l : list nat) :
  last (map Z.of_nat l) 0 = Z.of_nat (last l 0%nat).
Proof.
  induction l as [|a [|b l] IH]; try reflexivity. exact IH.
Qed.

Lemma expandable_Forall2 (size sizes : list Z) :
  Forall2 (fun s z => (s = z \/ s = 1) /\ 0 <= z) size sizes ->
  DenseProjection.expandable size sizes = true /\
  Forall (fun z => 0 <= z) sizes.
Proof.
  induction 1 as [|s z size sizes [Hsz Hz] _ [IH1 IH2]]; simpl;
    [split; [reflexivity | constructor]|].
  split; [|constructor; assumption].
  rewrite IH1, andb_true_r. apply andb_true_iff. split.
  - apply orb_true_iff. destruct Hsz as [-> | ->];
      [left; apply Z.eqb_refl | right; reflexivity].
  - apply Z.leb_le. exact Hz.
Qed.

(** The dense tensors satisfy the shape rules. *)
Lemma DenseProjection_laws
  (A : Type) (e_mul e_div e_add e_sub : A -> A -> A) (e_zero : A) :
  ProjectionLaws (Dense.runtime A e_mul e_div e_add e_sub e_zero)
    (DenseProjection.runtime A e_mul e_div e_add e_sub e_zero)
    (DenseProjection.layout A e_mul e_div e_add e_sub e_zero).
Proof.
  constructor; cbn [t_dim t_size t_matmul t_view t_unsqueeze t_expand t_bmm
                    DenseProjection.runtime tensor last_dim t_new
                    Dense.runtime t_is_contiguous DenseProjection.layout].
  - intros t. unfold DenseProjection.dim, DenseProjection.size.
    rewrite length_map. reflexivity.
  - intros t. apply last_of_nat.
  - intros t. apply of_nat_nonneg.
  - intros n t. unfold Dense.new, DenseProjection.size.
    destruct (n <? 0) eqn:Hn; intros H; inversion H; simpl.
    apply Z.ltb_ge in Hn. rewrite Z2Nat.id by exact Hn. reflexivity.
  - intros a w n d Ha Hw. unfold DenseProjection.matmul.
    rewrite Ha, Hw, Z.eqb_refl. eexists. split; [reflexivity|].
    unfold DenseProjection.size; cbn [Dense.shape map].
    pose proof (of_nat_nonneg (Dense.shape a)) as Hn.
    fold (DenseProjection.size A a) in Hn. rewrite Ha in Hn.
    inversion Hn; subst. rewrite Z2Nat.id by assumption. reflexivity.
  - intros t args s _ H. unfold DenseProjection.view. rewrite H.
    eexists. split; [reflexivity|].
    unfold DenseProjection.size at 1; cbn [Dense.shape].
    apply map_of_nat_to_nat.
    exact (view_shape_nonneg _ _ _ (of_nat_nonneg _) H).
  - intros t k Hk. unfold DenseProjection.unsqueeze, DenseProjection.dim.
    unfold DenseProjection.size in Hk. rewrite length_map in Hk.
    replace ((0 <=? k) && (k <=? Z.of_nat (length (Dense.shape t))))%bool
      with true
      by (symmetry; apply andb_true_iff; split; apply Z.leb_le; lia).
    eexists. split; [reflexivity|].
    unfold DenseProjection.size at 1; cbn [Dense.shape].
    apply map_of_nat_to_nat. unfold insert_at.
    pose proof (of_nat_nonneg (Dense.shape t)) as Hall.
    rewrite <- (firstn_skipn (Z.to_nat k)) in Hall.
    apply Forall_app in Hall as [Hfirst Hskip].
    apply Forall_app. split; [exact Hfirst|].
    constructor; [lia | exact Hskip].
  - intros t sizes H. unfold DenseProjection.expand.
    pose proof (Forall2_length H) as Hlen.
    unfold DenseProjection.size in Hlen. rewrite length_map in Hlen.
    rewrite <- Hlen, Nat.sub_diag. cbn [repeat app].
    destruct (expandable_Forall2 _ _ H) as [He Hnn].
    fold (DenseProjection.size A t). rewrite He.
    eexists. split; [reflexivity|].
    unfold DenseProjection.size at 1; cbn [Dense.shape].
    apply map_of_nat_to_nat. exact Hnn.
  - intros a c b n m p Ha Hc. unfold DenseProjection.bmm.
    rewrite Ha, Hc, !Z.eqb_refl. cbn [andb].
    eexists. split; [reflexivity|].
    unfold DenseProjection.size at 1; cbn [Dense.shape map].
    pose proof (of_nat_nonneg (Dense.shape a)) as Hn.
    fold (DenseProjection.size A a) in Hn. rewrite Ha in Hn.
    pose proof (of_nat_nonneg (Dense.shape c)) as Hn'.
    fold (DenseProjection.size A c) in Hn'. rewrite Hc in Hn'.
    inversion Hn as [|? ? Hb Hn2]; subst. inversion Hn2 as [|? ? Hnn _]; subst.
    inversion Hn' as [|? ? _ Hc2]; subst. inversion Hc2 as [|? ? _ Hc3]; subst.
    inversion Hc3 as [|? ? Hp _]; subst.
    rewrite !Z2Nat.id by assumption. reflexivity.
  - reflexivity.
Qed.

(** X14: for an object built for the dimensions of the last axes of two
    tensors, and a combined tensor with at least two axes, none of them
    empty, that is contiguous when it has more than two, the product with
    the weight vector in [forward] succeeds, on the matrix path ([@]) as
    on the batch path ([view], [bmm], [view]), and its result has the sizes
    of the combined tensor without the last one.  (For the single token
    [x] or [y] the combined tensor is the caller's own tensor, which need
    not be contiguous; the batch path can then raise in [view].) *)
Theorem dot_product_shape
  (R : TensorRuntime) (L : TensorLaws R)
  (P : ProjectionRuntime R) (Y : LayoutRuntime R)
  (PL : ProjectionLaws R P Y)
  (combination : string) (activation : tensor -> result tensor)
  (self : LinearSimilarity) (tensor_1 tensor_2 combined : tensor) :
  __init__ (last_dim tensor_1) (last_dim tensor_2) combination activation
    = Ok self ->
  _combine_tensors (_combinations self) tensor_1 tensor_2 = Ok combined ->
  2 <= t_dim combined ->
  (2 < t_dim combined -> t_is_contiguous combined = true) ->
  Forall (fun s => 0 < s) (t_size combined) ->
  exists dot_product,
    Forward_pass.dot_product_of self combined = Ok dot_product /\
    t_size dot_product = all_but_last (t_size combined).
Proof.
  intros Hinit Hv Hdim Hcontiguous Hpos.
  pose proof (combined_last_dim_weight R L _ _ _ _ _ _ Hinit Hv) as Hfit.
  apply __init___Ok in Hinit as (dims & _ & _ & Hw & _).
  pose proof (new_size _ _ Hw) as Hsize.
  apply new_last_dim in Hw.
  apply dot_product_of_sizes; try assumption.
  rewrite Hsize. congruence.
Qed.

Lemma dot_product_shape_witness :
  let self :=
    @Build_LinearSimilarity Dense.Qruntime ["x"; "y"]
      {| Dense.shape := [2%nat]; Dense.data := repeat 0%Q 2 |}
      {| Dense.shape := [1%nat]; Dense.data := [0%Q] |}
      default_activation in
  let combined : @tensor Dense.Qruntime :=
    {| Dense.shape := [1; 2; 2]%nat;
       Dense.data := [1#1; 3#1; 2#1; 4#1]%Q |} in
  exists dot_product,
    Forward_pass.dot_product_of (P := DenseProjection.Qruntime)
      self combined = Ok dot_product /\
    t_size (ProjectionRuntime := DenseProjection.Qruntime) dot_product
    = all_but_last
        (t_size (ProjectionRuntime := DenseProjection.Qruntime) combined).
Proof.
  intros self combined.
  apply (dot_product_shape Dense.Qruntime
           (Dense_laws Q Qmult Qdiv Qplus Qminus 0%Q)
           DenseProjection.Qruntime DenseProjection.Qlayout
           (DenseProjection_laws Q Qmult Qdiv Qplus Qminus 0%Q)
           "x,y" default_activation self
           {| Dense.shape := [1; 2; 1]%nat; Dense.data := [1#1; 2#1]%Q |}
           {| Dense.shape := [1; 2; 1]%nat; Dense.data := [3#1; 4#1]%Q |}
           combined).
  - vm_compute. reflexivity.
  - vm_compute. reflexivity.
  - vm_compute. discriminate.
  - intros _. reflexivity.
  - repeat constructor.
Defined.

(** ** The weight vector over the lifetime of the object *)

Section ObjectProperties.

Context {R : TensorRuntime} {P : ProjectionRuntime R}.

Ltac run_body :=
  repeat match goal with
         | |- context [match ?r with Ok _ => _ | Raise _ => _ end] =>
             destruct r; cbn
         end.

(** The method bodies compute what the functions on the record compute,
    and read the attributes only. *)
Lemma forward_body (tensor_1 tensor_2 : tensor) (self : LinearSimilarity) :
  Object.forward tensor_1 tensor_2 self
  = (Forward_pass.forward self tensor_1 tensor_2, self).
Proof.
  unfold Object.forward, Object._combine_tensors, Object.body_bind,
    Object.getattr, Object.lift, Forward_pass.forward, bind.
  run_body; reflexivity.
Qed.

Lemma _combine_tensors_body
  (tensor_1 tensor_2 : tensor) (self : LinearSimilarity) :
  Object._combine_tensors tensor_1 tensor_2 self
  = (_combine_tensors (_combinations self) tensor_1 tensor_2, self).
Proof. reflexivity. Qed.

Lemma _get_combined_dim_body
  (tensor_1_dim tensor_2_dim : Z) (self : LinearSimilarity) :
  Object._get_combined_dim tensor_1_dim tensor_2_dim self
  = (_get_combined_dim (_combinations self) tensor_1_dim tensor_2_dim, self).
Proof. reflexivity. Qed.

(** No method other than the constructor assigns to an attribute. *)
Lemma call_leaves_object (m : Object.method) (self : LinearSimilarity) :
  Object.call m self = self.
Proof.
  destruct m; cbn [Object.call];
    [rewrite forward_body | rewrite _combine_tensors_body
     | | rewrite _get_combined_dim_body | ]; reflexivity.
Qed.

Lemma lifetime_leaves_object
  (calls : list Object.method) (self : LinearSimilarity) :
  Object.lifetime calls self = self.
Proof.
  unfold Object.lifetime. induction calls as [|m calls IH]; cbn [fold_left];
    [reflexivity | rewrite call_leaves_object; exact IH].
Qed.

(** The constructor assigns the four attributes: whatever object it starts
    on, it leaves the record that [__init__] returns. *)
Lemma __init___body
  (d1 d2 : Z) (combination : string) (activation : tensor -> result tensor)
  (self before : LinearSimilarity) :
  __init__ d1 d2 combination activation = Ok self ->
  Object.__init__ d1 d2 combination activation before = (Ok tt, self).
Proof.
  unfold __init__, Object.__init__, Object._get_combined_dim,
    Object.body_bind, Object.getattr, Object.lift, Object.set_combinations,
    Object.set_weight_vector, Object.set_bias, Object.set_activation, bind.
  cbn.
  destruct (_get_combined_dim (split "," combination) d1 d2) as [n|e];
    [|discriminate].
  destruct (t_new n) as [w|e]; [|discriminate].
  destruct (t_new 1) as [b|e]; [|discriminate].
  intros [= <-]. reflexivity.
Qed.

End ObjectProperties.

(** The dimension pass against the rule of the specification. *)
Lemma spec_literal_operand (a : ascii) (d1 d2 : Z) :
  is_operand a = true ->
  spec_literal_dimension a d1 d2 = Some (operand_dim a d1 d2).
Proof.
  unfold is_operand, spec_literal_dimension, operand_dim.
  destruct (Ascii.eqb a "x"); [reflexivity|].
  destruct (Ascii.eqb a "y"); [reflexivity | discriminate].
Qed.

Lemma dimension_pass_spec (c : string) (d1 d2 d : Z) :
  _get_combination_dim c d1 d2 = Ok d ->
  (valid_expression c = true /\ spec_dimension c d1 d2 = Some d) \/
  (valid_expression c = false /\ operands_share c d1 d2 d).
Proof.
  intros H. apply dimension_pass_Ok_iff in H
    as [[-> ->] | [[-> ->] | (a & op & b & -> & Ha & Hb & Hda & Hdb)]].
  - left. split; reflexivity.
  - left. split; reflexivity.
  - pose proof (spec_literal_operand a d1 d2 Ha) as Sa.
    pose proof (spec_literal_operand b d1 d2 Hb) as Sb.
    rewrite Hda in Sa. rewrite Hdb in Sb.
    cbn [binary valid_expression spec_dimension].
    rewrite Ha, Hb, Sa, Sb, Z.eqb_refl, andb_true_r. cbn [andb].
    destruct (is_operator op) eqn:Hop; [left; split; reflexivity|].
    right. split; [reflexivity|]. exists a, op, b. auto.
Qed.

(** Conversely the dimension pass returns the dimension of every
    combination expression that has one. *)
Lemma spec_dimension_pass (c : string) (d1 d2 d : Z) :
  spec_dimension c d1 d2 = Some d -> _get_combination_dim c d1 d2 = Ok d.
Proof.
  intros H. apply dimension_pass_Ok_iff.
  destruct c as [|a [|op [|b [|? ?]]]]; cbn [spec_dimension] in H;
    try discriminate.
  - unfold spec_literal_dimension in H.
    destruct (Ascii.eqb a "x") eqn:Ex.
    { apply Ascii.eqb_eq in Ex. subst. inversion H. auto. }
    destruct (Ascii.eqb a "y") eqn:Ey; [|discriminate].
    apply Ascii.eqb_eq in Ey. subst. inversion H. auto.
  - right. right. exists a, op, b.
    destruct (is_operator op); [|discriminate].
    unfold spec_literal_dimension, is_operand, operand_dim in *.
    destruct (Ascii.eqb a "x"), (Ascii.eqb a "y"),
             (Ascii.eqb b "x"), (Ascii.eqb b "y");
      try discriminate;
      match type of H with
      | (if ?x =? ?y then _ else _) = _ =>
          destruct (x =? y) eqn:E; [|discriminate];
          apply Z.eqb_eq in E; inversion H; subst
      end;
      repeat split; try reflexivity; congruence.
Qed.

Lemma dimensions_spec (cs : list string) (d1 d2 : Z) (dims : list Z) :
  Forall2 (fun c d => _get_combination_dim c d1 d2 = Ok d) cs dims ->
  Forall2 (fun c d => spec_dimension c d1 d2 = Some d \/
                      operands_share c d1 d2 d) cs dims /\
  (forallb valid_expression cs = true ->
   Forall2 (fun c d => spec_dimension c d1 d2 = Some d) cs dims).
Proof.
  induction 1 as [|c d cs dims Hc _ [IH1 IH2]];
    [split; [constructor | intros _; constructor]|].
  apply dimension_pass_spec in Hc. split.
  - constructor; [|exact IH1].
    destruct Hc as [[_ Hs] | [_ Hs]]; [left | right]; exact Hs.
  - cbn [forallb]. intros Hv. apply andb_true_iff in Hv as [Hv Hvs].
    constructor; [|exact (IH2 Hvs)].
    destruct Hc as [[_ Hs] | [Hn _]]; [exact Hs | congruence].
Qed.

(** C9: the object that a successful constructor leaves has the pieces of
    the combination string as its tokens and a weight vector whose length
    is the sum, in list order, of the dimensions that the specification
    gives the tokens: the dimension of the first input for [x], of the
    second for [y], the shared dimension of the operands for a binary
    expression.  The only other tokens that a constructed object can have
    are operand, character, operand with operands of one dimension, which
    count with that dimension.  No method assigns to an attribute, so this
    holds after every sequence of method calls. *)
Theorem weight_vector_dimension
  (R : TensorRuntime) (L : TensorLaws R) (P : ProjectionRuntime R)
  (tensor_1_dim tensor_2_dim : Z) (combination : string)
  (activation : tensor -> result tensor)
  (self before : LinearSimilarity) (calls : list Object.method) :
  __init__ tensor_1_dim tensor_2_dim combination activation = Ok self ->
  Object.__init__ tensor_1_dim tensor_2_dim combination activation before
    = (Ok tt, self) /\
  exists dims : list Z,
    _combinations (Object.lifetime calls self) = split "," combination /\
    Forall2 (fun c d =>
               spec_dimension c tensor_1_dim tensor_2_dim = Some d \/
               operands_share c tensor_1_dim tensor_2_dim d)
            (_combinations (Object.lifetime calls self)) dims /\
    (forallb valid_expression (_combinations (Object.lifetime calls self))
       = true ->
     Forall2 (fun c d =>
                spec_dimension c tensor_1_dim tensor_2_dim = Some d)
             (_combinations (Object.lifetime calls self)) dims) /\
    last_dim (_weight_vector (Object.lifetime calls self)) = sum dims.
Proof.
  intros H. split; [apply __init___body; exact H|].
  rewrite lifetime_leaves_object.
  apply __init___Ok in H as (dims & Hdims & Hc & Hw & _).
  apply combination_dims_Ok in Hdims.
  destruct (dimensions_spec _ _ _ _ Hdims) as [Hall Hvalid].
  exists dims. rewrite Hc.
  split; [reflexivity|]. split; [exact Hall|]. split; [exact Hvalid|].
  apply new_last_dim. exact Hw.
Qed.

Lemma weight_vector_dimension_witness :
  let self :=
    @Build_LinearSimilarity Dense.Qruntime
      ["x"; "y"; "x*x"; "y-y"]
      {| Dense.shape := [10%nat]; Dense.data := repeat 0%Q 10 |}
      {| Dense.shape := [1%nat]; Dense.data := [0%Q] |}
      default_activation in
  let before :=
    @Build_LinearSimilarity Dense.Qruntime
      [] (Dense.vector []) (Dense.vector []) default_activation in
  let calls :=
    [Object.Forward (R := Dense.Qruntime)
       (Dense.vector [1#1; 2#1]%Q) (Dense.vector [4#1; 5#1; 6#1]%Q);
     Object.Get_combined_dim 2 3;
     Object.Combine_tensors (R := Dense.Qruntime)
       (Dense.vector [1#1; 2#1]%Q) (Dense.vector [4#1; 5#1; 6#1]%Q)] in
  Object.__init__ (R := Dense.Qruntime)
    2 3 "x,y,x*x,y-y" default_activation before = (Ok tt, self) /\
  exists dims : list Z,
    _combinations (Object.lifetime (P := DenseProjection.Qruntime) calls self)
      = split "," "x,y,x*x,y-y" /\
    Forall2 (fun c d => spec_dimension c 2 3 = Some d \/
                        operands_share c 2 3 d)
            (_combinations
               (Object.lifetime (P := DenseProjection.Qruntime) calls self))
            dims /\
    (forallb valid_expression
       (_combinations
          (Object.lifetime (P := DenseProjection.Qruntime) calls self))
       = true ->
     Forall2 (fun c d => spec_dimension c 2 3 = Some d)
             (_combinations
                (Object.lifetime (P := DenseProjection.Qruntime) calls self))
             dims) /\
    last_dim (_weight_vector
                (Object.lifetime (P := DenseProjection.Qruntime) calls self))
      = sum dims.
Proof.
  intros self before calls.
  apply (weight_vector_dimension Dense.Qruntime
           (Dense_laws Q Qmult Qdiv Qplus Qminus 0%Q)
           DenseProjection.Qruntime
           2 3 "x,y,x*x,y-y" default_activation self before calls).
  vm_compute. reflexivity.
Defined.
